(** * influx_lp_writer: the line-protocol writer of db_tools

    A shallow embedding of [write_files] from
    [src/db_tools/influx_lp_writer.py]: the in-place rename and fill of the
    caller's DataFrame, the chunk count, [numpy.array_split], and the
    per-row line encoding written to one file per chunk. *)

From Stdlib Require Import ZArith String Ascii List Decimal DecimalString
  DecimalNat DecimalZ Lia.
From stdpp Require Import gmap strings list.

Local Open Scope string_scope.
Local Open Scope Z_scope.

(** ** Python strings *)

Module Py.

(** [sep.join(parts)] *)
Definition join (sep : string) (parts : list string) : string :=
  String.concat sep parts.

(** [str(n)] and ['%d' % n] for a non-negative int *)
Definition str_nat (n : nat) : string :=
  NilZero.string_of_uint (Nat.to_uint n).

(** [s.split(c)[0]]: the text before the first [c], all of [s] without one *)
Fixpoint split_head (c : ascii) (s : string) : string :=
  match s with
  | EmptyString => EmptyString
  | String a s' => if Ascii.eqb a c then EmptyString else String a (split_head c s')
  end.

(** [s.split(c)] for a one-character separator *)
Fixpoint split (c : ascii) (s : string) : list string :=
  match s with
  | EmptyString => [EmptyString]
  | String a s' =>
      if Ascii.eqb a c then EmptyString :: split c s'
      else match split c s' with
           | [] => [String a EmptyString]
           | p :: ps => String a p :: ps
           end
  end.

Definition newline : string := String "010"%char EmptyString.

(** Every character of [s] satisfies [P]. *)
Fixpoint string_forall (P : ascii -> bool) (s : string) : bool :=
  match s with
  | EmptyString => true
  | String a s' => P a && string_forall P s'
  end.

(** [c not in s] *)
Definition free_of (c : ascii) (s : string) : bool :=
  string_forall (fun a => negb (Ascii.eqb a c)) s.

Definition is_digit (a : ascii) : bool :=
  match a with
  | "0" | "1" | "2" | "3" | "4" | "5" | "6" | "7" | "8" | "9" => true
  | _ => false
  end%char.

(** The character of a decimal digit, and the [n] low digits of [r], most
    significant first. *)
Definition digit_char (d : Z) : ascii := ascii_of_nat (48 + Z.to_nat d).

Fixpoint fixed_digits (n : nat) (r : Z) : string :=
  match n with
  | O => EmptyString
  | S n' => String (digit_char (r / 10 ^ Z.of_nat n' mod 10)) (fixed_digits n' r)
  end.

Fixpoint rstrip_zeros (s : string) : string :=
  match s with
  | EmptyString => EmptyString
  | String a s' =>
      let t := rstrip_zeros s' in
      if Ascii.eqb a "0" && String.eqb t "" then EmptyString else String a t
  end.

(** [str(z)] for an int *)
Definition str_Z (z : Z) : string := NilZero.string_of_int (Z.to_int z).

Definition sign_text (us : Z) : string := if us <? 0 then "-" else "".

(** [str(t.timestamp())] for a Timestamp [us] microseconds from the epoch.
    [Timestamp.timestamp()] is [round(value / 1e9, 6)], the float nearest
    [us / 10^6], and [str] gives the shortest decimal text that reads back
    as that float: the whole seconds, a dot and the fraction without its
    trailing zeros, or, below 1e-4, exponent notation.

    Domain: [Z.abs us < 2 ^ 31 * 10 ^ 6], timestamps less than 2^31 seconds
    from the epoch (1901 to 2038), as the readings have.  There the float
    is less than half a microsecond away from [us / 10^6], so it determines
    the microsecond count and the text is as given here.  Further out the
    float no longer carries the microsecond digit and the text of the
    program is another one: nothing is claimed of [str_seconds] there, and
    every property that reads the digits of the text carries the bound. *)
Definition str_seconds (us : Z) : string :=
  let a := Z.abs us in
  let sign := sign_text us in
  if a =? 0 then "0.0"
  else if a <? 100 then
    let ds := if a <? 10 then fixed_digits 1 a else fixed_digits 2 a in
    match ds with
    | EmptyString => EmptyString
    | String d rest =>
        let rest' := rstrip_zeros rest in
        sign ++ String d (if String.eqb rest' "" then "" else "." ++ rest')
             ++ (if a <? 10 then "e-06" else "e-05")
    end
  else
    let frac := rstrip_zeros (fixed_digits 6 (a mod 10 ^ 6)) in
    sign ++ str_Z (a / 10 ^ 6) ++ "." ++ (if String.eqb frac "" then "0" else frac).

(** The exceptions [write_files] can raise on a table held in memory. *)
Inductive exn : Type :=
| KeyError (key : string)
| ZeroDivisionError
| ValueError
| AttributeError
| UnboundLocalError.

End Py.
Export Py.

(** ** Cells and frames *)

(** A cell of the table.  [NaN], [NaT] and [PyNone] are the three markers
    pandas' [isna] reports as missing.  [Timestamp us] is a pandas Timestamp
    (what [read_sql] makes of a timestamptz), [us] its distance from the
    epoch in microseconds, the resolution of the PostgreSQL column.  [Obj x]
    is any other Python scalar: the readings (floats, ints) and text. *)
Inductive cell (V : Type) : Type :=
| NaN
| NaT
| PyNone
| Timestamp (us : Z)
| Obj (x : V).
Arguments NaN {V}.
Arguments NaT {V}.
Arguments PyNone {V}.
Arguments Timestamp {V} us.
Arguments Obj {V} x.

(** What the script takes from Python and pandas for the scalars it never
    inspects. *)
Class PyScalar (V : Type) : Type := {
  (** the object [fillna(0)] stores in place of a missing value *)
  py_zero : V;
  (** [str(x)] *)
  str_obj : V -> string;
  (** [str(t)] of a Timestamp outside the [created] column *)
  str_Timestamp : Z -> string;
  (** [str(s)] of the Series that [row[column]] is when several columns
      carry the label [column] *)
  str_Series : list (cell V) -> string
}.

Section Frame.
Context {V : Type} `{PyScalar V}.

Definition isna (c : cell V) : bool :=
  match c with
  | NaN | NaT | PyNone => true
  | Timestamp _ | Obj _ => false
  end.

Definition str_cell (c : cell V) : string :=
  match c with
  | NaN => "nan"
  | NaT => "NaT"
  | PyNone => "None"
  | Timestamp us => str_Timestamp us
  | Obj x => str_obj x
  end.

(** A DataFrame, column-major as pandas stores it: [nrows] is [len(df)]
    (the length of the index), [series] the labelled columns in column
    order.  Labels may repeat. *)
Record DataFrame : Type := mkDataFrame {
  nrows : nat;
  series : list (string * list (cell V))
}.

Definition columns (df : DataFrame) : list string := (series df).*1.

(** [df.rename(mapper=m, axis=1)]: every label in [m] is replaced by its
    image, the others stay. *)
Definition rename (m : gmap string string) (df : DataFrame) : DataFrame :=
  mkDataFrame (nrows df)
    (map (fun p => (default p.1 (m !! p.1), p.2)) (series df)).

(** [v in m.values()] *)
Definition in_values (v : string) (m : gmap string string) : bool :=
  bool_decide (v ∈ (map_to_list m).*2).

(** [s.fillna(0)] *)
Definition fillna_zero (s : list (cell V)) : list (cell V) :=
  map (fun c => if isna c then Obj py_zero else c) s.

(** [s.fillna(method='ffill')]: a missing cell takes the last value seen
    that is not missing; with none seen yet it stays as it is. *)
Fixpoint ffill_from (last : option (cell V)) (s : list (cell V))
    : list (cell V) :=
  match s with
  | [] => []
  | c :: s' =>
      if isna c then default c last :: ffill_from last s'
      else c :: ffill_from (Some c) s'
  end.

Definition ffill (s : list (cell V)) : list (cell V) := ffill_from None s.

(** [df[name] = f(df[name])]: [df[name]] raises KeyError when no column is
    labelled [name]; otherwise every column with that label is replaced. *)
Definition setitem_with (name : string) (f : list (cell V) -> list (cell V))
    (df : DataFrame) : exn + DataFrame :=
  if bool_decide (name ∈ columns df) then
    inr (mkDataFrame (nrows df)
           (map (fun p => if String.eqb p.1 name then (p.1, f p.2) else p)
                (series df)))
  else inl (KeyError name).

(** ** Chunking *)

(** [int(len(df)/chunk_size)]: a true division and a truncation toward
    zero.  On row counts below 2^53 the float quotient has the integer part
    of the exact one. *)
Definition chunk_count (n : nat) (chunk_size : Z) : exn + Z :=
  if chunk_size =? 0 then inl ZeroDivisionError
  else inr (Z.quot (Z.of_nat n) chunk_size).

(** [numpy.cumsum] *)
Fixpoint cumsum_from (acc : nat) (l : list nat) : list nat :=
  match l with
  | [] => []
  | x :: l' => (acc + x)%nat :: cumsum_from (acc + x)%nat l'
  end.

Definition cumsum (l : list nat) : list nat := cumsum_from 0 l.

(** [df[st:end]]: the rows at positions [st], ..., [end - 1], clipped to
    the table. *)
Definition slice_rows (st en : nat) (df : DataFrame) : DataFrame :=
  mkDataFrame (Nat.min en (nrows df) - Nat.min st (nrows df))%nat
    (map (fun p => (p.1, take (en - st) (drop st p.2))) (series df)).

(** [numpy.array_split(df, sections)] for an integer [sections]: the first
    [len(df) % sections] parts get one row more than the others. *)
Definition section_sizes (total sections : nat) : list nat :=
  let each := (total / sections)%nat in
  let extras := (total mod sections)%nat in
  [0%nat] ++ replicate extras (each + 1)%nat ++ replicate (sections - extras) each.

Definition div_points (total sections : nat) : list nat :=
  cumsum (section_sizes total sections).

Definition array_split (df : DataFrame) (sections : Z) : exn + list DataFrame :=
  if sections <=? 0 then inl ValueError
  else
    let k := Z.to_nat sections in
    let dp := div_points (nrows df) k in
    inr (map (fun i => slice_rows (nth i dp 0%nat) (nth (S i) dp 0%nat) df)
             (seq 0 k)).

(** The row at which part [i] of [sections] starts: what the cumulative
    sum of the section sizes comes to. *)
Definition part_start (total sections i : nat) : nat :=
  (i * (total / sections) + Nat.min i (total mod sections))%nat.

(** ** The encoded row *)

(** [row[column]] for the row at position [i]: the entries of the row
    labelled [column], one per column with that label. *)
Definition row_getitem (df : DataFrame) (i : nat) (column : string)
    : list (cell V) :=
  map (fun p => nth i p.2 NaN) (filter (fun p => p.1 = column) (series df)).

(** [str(row[column])]: the scalar's text, or the text of a Series when
    the label repeats. *)
Definition str_item (xs : list (cell V)) : string :=
  match xs with
  | [c] => str_cell c
  | _ => str_Series xs
  end.

(** [str(row.created.timestamp()).split('.')[0]].  The attribute lookup
    fails when no column is labelled [created]; a Series (repeated label),
    a float or None have no [timestamp]; [NaT.timestamp()] raises
    ValueError. *)
Definition row_timestamp (df : DataFrame) (i : nat) : exn + string :=
  match row_getitem df i "created" with
  | [Timestamp us] => inr (split_head "."%char (str_seconds us))
  | [NaT] => inl ValueError
  | _ => inl AttributeError
  end.

(** The loop over [columns] of lines 91-95.  [measures] is the list built
    so far; [bound] holds [data_elements] and [timestamp] once an iteration
    has assigned them. *)
Fixpoint columns_loop (df : DataFrame) (i : nat) (cols : list string)
    (measures : list string) (bound : option (string * string))
    : exn + option (string * string) :=
  match cols with
  | [] => inr bound
  | column :: cols' =>
      let measures' :=
        if String.eqb column "created" then measures
        else (measures ++ [join "=" [column; str_item (row_getitem df i column)]])%list in
      let data_elements := join "," measures' in
      match row_timestamp df i with
      | inl e => inl e
      | inr timestamp =>
          columns_loop df i cols' measures' (Some (data_elements, timestamp))
      end
  end.

(** Lines 90-96 for the row at position [i] of a chunk: the text handed to
    [write].  With no column at all the loop body never runs and
    [data_elements] is unbound at the first row. *)
Definition lp_line (line_reference : string) (cols : list string)
    (df : DataFrame) (i : nat) : exn + string :=
  match columns_loop df i cols [] None with
  | inl e => inl e
  | inr None => inl UnboundLocalError
  | inr (Some (data_elements, timestamp)) =>
      inr (join " " [line_reference; data_elements; timestamp; newline])
  end.

(** ** The world [write_files] runs in *)

(** [frame] is the DataFrame object the caller passes as [df]; a file is
    the sequence of strings written to it. *)
Record world : Type := mkWorld {
  frame : DataFrame;
  files : gmap string (list string);
  stdout : list string
}.

(** State and exceptions: a raised exception keeps the world as it was
    when it was raised. *)
Definition M (A : Type) : Type := world -> (exn + A) * world.

Definition ret {A} (a : A) : M A := fun w => (inr a, w).

Definition bind {A B} (m : M A) (k : A -> M B) : M B :=
  fun w => match m w with
           | (inl e, w') => (inl e, w')
           | (inr a, w') => k a w'
           end.

Definition raise_or {A} (r : exn + A) : M A := fun w => (r, w).

Definition get_frame : M DataFrame := fun w => (inr (frame w), w).

Definition put_frame (df : DataFrame) : M unit :=
  fun w => (inr tt, mkWorld df (files w) (stdout w)).

(** [print(s)] *)
Definition print (s : string) : M unit :=
  fun w => (inr tt, mkWorld (frame w) (files w) (stdout w ++ [s])%list).

(** [open(name, 'w')]: the file is created, or emptied when it exists.  The
    output directory is taken to exist and to be writable. *)
Definition fopen (name : string) : M unit :=
  fun w => (inr tt, mkWorld (frame w) (<[name := []]> (files w)) (stdout w)).

(** [f.write(s)] on the file opened as [name] *)
Definition fwrite (name : string) (s : string) : M unit :=
  fun w => (inr tt,
            mkWorld (frame w) (alter (fun ls => (ls ++ [s])%list) name (files w))
                    (stdout w)).

Fixpoint for_each {A} (l : list A) (body : A -> M unit) : M unit :=
  match l with
  | [] => ret tt
  | x :: l' => bind (body x) (fun _ => for_each l' body)
  end.

End Frame.

Arguments DataFrame V : clear implicits.
Arguments world V : clear implicits.
Arguments M V A : clear implicits.

Declare Scope py_scope.
Delimit Scope py_scope with py.
Notation "x <- c1 ;; c2" := (bind c1 (fun x => c2))
  (at level 100, c1 at next level, right associativity) : py_scope.
Notation "c1 ;; c2" := (bind c1 (fun _ => c2))
  (at level 100, right associativity) : py_scope.

(** ** write_files *)

Section WriteFiles.
Context {V : Type} `{PyScalar V}.
Local Open Scope py_scope.

Definition lp_file_name (db_name slug : string) (i : nat) : string :=
  join "_" ["../temp_files/cgb_ges_data/" ++ db_name; slug;
            "chunk_" ++ str_nat i ++ ".txt"].

(** Lines 87-99 for the chunk of index [i]. *)
Definition write_chunk (db_name slug line_reference : string)
    (cols : list string) (i : nat) (chunk : DataFrame V) : M V unit :=
  let name := lp_file_name db_name slug i in
  fopen name ;;
  for_each (seq 0 (nrows chunk)) (fun r =>
    lp_line <- raise_or (lp_line line_reference cols chunk r) ;;
    fwrite name lp_line).

(** [df.rename(..., inplace=True)] and [df[name] = ...] act on the
    caller's object. *)
Definition rename_inplace (m : gmap string string) : M V unit :=
  df <- get_frame ;; put_frame (rename m df).

Definition setitem_inplace (name : string)
    (f : list (cell V) -> list (cell V)) : M V unit :=
  df <- get_frame ;;
  df' <- raise_or (setitem_with name f df) ;;
  put_frame df'.

(** Lines 77-80: the caller's table is renamed and filled in place. *)
Definition normalize_inplace (column_mapping : gmap string string) : M V unit :=
  rename_inplace column_mapping ;;
  (if in_values "heat_flow_rate" column_mapping
   then setitem_inplace "heat_flow_rate" fillna_zero
   else ret tt) ;;
  setitem_inplace "outdoor_temperature" ffill.

(** Lines 81-99: the chunk count, the split and one file per chunk. *)
Definition write_chunks (db_name uuid : string) (chunk_size : Z)
    (slug : string) : M V unit :=
  let line_reference := join "," [db_name; join "=" ["equipment"; uuid]] in
  df <- get_frame ;;
  let cols := columns df in
  chunks <- raise_or (chunk_count (nrows df) chunk_size) ;;
  df_split <- raise_or (array_split df chunks) ;;
  print (str_nat (length df_split)) ;;
  for_each (seq 0 (length df_split)) (fun i =>
    write_chunk db_name slug line_reference cols i
                (nth i df_split (mkDataFrame 0 []))).

Definition write_files (db_name uuid : string)
    (column_mapping : gmap string string) (chunk_size : Z) (slug : string)
    : M V unit :=
  normalize_inplace column_mapping ;;
  write_chunks db_name uuid chunk_size slug.

(** ** Derived views of the table, used to state the properties *)

(** Lines 77-80 as a function of the table: the normalized table, or the
    exception of the first fill whose column is missing. *)
Definition normalize (column_mapping : gmap string string) (df : DataFrame V)
    : exn + DataFrame V :=
  let df1 := rename column_mapping df in
  match (if in_values "heat_flow_rate" column_mapping
         then setitem_with "heat_flow_rate" fillna_zero df1
         else inr df1) with
  | inl e => inl e
  | inr df2 => setitem_with "outdoor_temperature" ffill df2
  end.

(** The caller's table once lines 77-80 have run or raised. *)
Definition normalized_frame (column_mapping : gmap string string)
    (df : DataFrame V) : DataFrame V :=
  let df1 := rename column_mapping df in
  match (if in_values "heat_flow_rate" column_mapping
         then setitem_with "heat_flow_rate" fillna_zero df1
         else inr df1) with
  | inl _ => df1
  | inr df2 =>
      match setitem_with "outdoor_temperature" ffill df2 with
      | inl _ => df2
      | inr df3 => df3
      end
  end.

(** What lines 78-80 make of a column labelled [l]. *)
Definition fill_column (column_mapping : gmap string string) (l : string)
    (s : list (cell V)) : list (cell V) :=
  if String.eqb l "outdoor_temperature" then ffill s
  else if in_values "heat_flow_rate" column_mapping
          && String.eqb l "heat_flow_rate" then fillna_zero s
  else s.

(** The row at position [i], and the rows in index order. *)
Definition row (df : DataFrame V) (i : nat) : list (cell V) :=
  map (fun p => nth i p.2 NaN) (series df).

Definition rows (df : DataFrame V) : list (list (cell V)) :=
  map (row df) (seq 0 (nrows df)).

(** Every row has one [created] entry and it is a Timestamp. *)
Definition has_timestamps (df : DataFrame V) : bool :=
  forallb (fun i => match row_getitem df i "created" with
                    | [Timestamp _] => true
                    | _ => false
                    end) (seq 0 (nrows df)).

(** The [created] entry of the row at position [i], in microseconds from
    the epoch, when it is one Timestamp. *)
Definition created_us (df : DataFrame V) (i : nat) : option Z :=
  match row_getitem df i "created" with
  | [Timestamp us] => Some us
  | _ => None
  end.

(** The rows stand in timestamp order, no two at the same instant: each
    row's [created] entry is a Timestamp later than that of the row before
    it. *)
Definition in_timestamp_order (df : DataFrame V) : bool :=
  forallb (fun i => match created_us df i, created_us df (S i) with
                    | Some a, Some b => a <? b
                    | _, _ => false
                    end) (seq 0 (nrows df - 1)).

(** The [name=value] pairs of the row at position [i]. *)
Definition measures (cols : list string) (df : DataFrame V) (i : nat)
    : list string :=
  map (fun column => join "=" [column; str_item (row_getitem df i column)])
      (filter (fun column => column ≠ "created") cols).

(** The timestamp segment and the whole line of a row whose [created]
    entry is a Timestamp. *)
Definition created_text (df : DataFrame V) (i : nat) : string :=
  match row_getitem df i "created" with
  | [Timestamp us] => split_head "."%char (str_seconds us)
  | _ => ""
  end.

Definition lp_text (line_reference : string) (cols : list string)
    (df : DataFrame V) (i : nat) : string :=
  join " " [line_reference; join "," (measures cols df i);
            created_text df i; newline].

(** The tag segment. *)
Definition line_reference_of (db_name uuid : string) : string :=
  join "," [db_name; join "=" ["equipment"; uuid]].

(** The [k] parts [array_split] cuts a table into. *)
Definition parts (df : DataFrame V) (k : nat) : list (DataFrame V) :=
  map (fun i => slice_rows (part_start (nrows df) k i)
                           (part_start (nrows df) k (S i)) df)
      (seq 0 k).

(** The lines of chunk [i] of [k] of a table whose rows all encode. *)
Definition chunk_content (lr : string) (df : DataFrame V) (k i : nat)
    : list string :=
  map (lp_text lr (columns df) df)
      (seq (part_start (nrows df) k i)
           (part_start (nrows df) k (S i) - part_start (nrows df) k i)).

(** The files once the chunks of the given indices are written, [content i]
    being the lines of chunk [i]. *)
Definition written (db_name slug : string) (content : nat -> list string)
    (fs : gmap string (list string)) (indices : list nat)
    : gmap string (list string) :=
  foldl (fun fs i => <[lp_file_name db_name slug i := content i]> fs)
        fs indices.

(** The lines of a table, row by row, up to the first that raises. *)
Fixpoint try_map {A B} (f : A -> exn + B) (l : list A) : exn + list B :=
  match l with
  | [] => inr []
  | x :: l' =>
      match f x with
      | inl e => inl e
      | inr y => match try_map f l' with
                 | inl e => inl e
                 | inr ys => inr (y :: ys)
                 end
      end
  end.

Definition lp_lines (line_reference : string) (cols : list string)
    (df : DataFrame V) : exn + list string :=
  try_map (lp_line line_reference cols df) (seq 0 (nrows df)).

End WriteFiles.

(** ** Reading a line back

    The reader of the format of the spec,
    [<db_name>,equipment=<uuid> <f1>=<v1>,<f2>=<v2>,... <epoch_seconds>],
    splitting on its delimiters: space between the segments, comma between
    the fields, equals sign between a name and its value.  White space at
    the end of the line is dropped first. *)

Module Reader.








(** A text the format can carry: none of its delimiters occurs in it. *)
Definition is_delimiter (a : ascii) : bool :=
  Ascii.eqb a " " || Ascii.eqb a "," || Ascii.eqb a "=".

Definition plain (s : string) : bool :=
  string_forall (fun a => negb (is_delimiter a)) s.

End Reader.

(** ** The batch driver's constants *)

(** [column_mapping], [msp_columns] and [chunk_size] of the [__main__]
    block. *)
Definition main_column_mapping : gmap string string :=
  list_to_map
    [("auxiliary_1", "heatpump_aux");
     ("compressor_1", "heatpump_power");
     ("lwt_1", "source_returntemp");
     ("ewt_1", "source_supplytemp");
     ("q_1_device", "sourcefluid_flowrate");
     ("outdoor_temperature", "outdoor_temperature");
     ("heat_flow_1", "heat_flow_rate")].

Definition main_msp_columns : string :=
  "ewt_1, lwt_1, compressor_1, created, q_1_device, auxiliary_1, heat_flow_1, outdoor_temperature".

Definition main_chunk_size : Z := 8000.

(** The column labels of the result set of [SELECT <list> FROM ...]: the
    items of the select list, the blanks around them dropped. *)
Fixpoint lstrip (s : string) : string :=
  match s with
  | String " " s' => lstrip s'
  | _ => s
  end.

Definition selected_columns (select_list : string) : list string :=
  map lstrip (split "," select_list).

(** No target name of the mapping is itself mapped to another name: a
    second [rename] with the same mapping changes nothing. *)
Definition targets_fixed (m : gmap string string) : Prop :=
  map_Forall (fun _ v => default v (m !! v) = v) m.

(** ** A scalar universe for the examples *)

(** Python ints and text.  The examples hold no Timestamp outside
    [created] and no repeated label, so the last two texts are never asked
    for. *)
Inductive pyobj : Type :=
| PyInt (n : Z)
| PyStr (s : string).

#[export] Instance pyobj_scalar : PyScalar pyobj := {|
  py_zero := PyInt 0;
  str_obj := fun x => match x with PyInt n => str_Z n | PyStr s => s end;
  str_Timestamp := fun us => "Timestamp";
  str_Series := fun _ => "Series"
|}.

Definition demo_mapping : gmap string string :=
  <["ewt_1" := "source_supplytemp"]> (<["heat_flow_1" := "heat_flow_rate"]> ∅).

Definition demo_frame : DataFrame pyobj :=
  mkDataFrame 3
    [("created", [Timestamp 1454768864000000; Timestamp 1454768865500000;
                  Timestamp 1454768866999999]);
     ("ewt_1", [Obj (PyInt 7); NaN; Obj (PyInt 9)]);
     ("heat_flow_1", [NaN; Obj (PyInt 3); NaN]);
     ("outdoor_temperature", [NaN; Obj (PyInt 5); NaN])].

Definition demo_world : world pyobj := mkWorld demo_frame ∅ [].

(** [demo_frame] once renamed and filled. *)
Definition demo_normalized : DataFrame pyobj :=
  mkDataFrame 3
    [("created", [Timestamp 1454768864000000; Timestamp 1454768865500000;
                  Timestamp 1454768866999999]);
     ("source_supplytemp", [Obj (PyInt 7); NaN; Obj (PyInt 9)]);
     ("heat_flow_rate", [Obj (PyInt 0); Obj (PyInt 3); Obj (PyInt 0)]);
     ("outdoor_temperature", [NaN; Obj (PyInt 5); Obj (PyInt 5)])].

(** Fifteen rows, one a second. *)
Definition demo_frame15 : DataFrame pyobj :=
  mkDataFrame 15
    [("created", map (fun i => Timestamp (Z.of_nat i * 1000000)) (seq 0 15));
     ("outdoor_temperature", map (fun i => Obj (PyInt (Z.of_nat i))) (seq 0 15))].

Definition demo_world15 : world pyobj := mkWorld demo_frame15 ∅ [].


(** Two rows out of timestamp order: the reading of second 2 stands before
    the row of second 1, which has none. *)
Definition demo_frame_unsorted : DataFrame pyobj :=
  mkDataFrame 2
    [("created", [Timestamp 2000000; Timestamp 1000000]);
     ("outdoor_temperature", [Obj (PyInt 5); NaN])].

Definition demo_world_unsorted : world pyobj :=
  mkWorld demo_frame_unsorted ∅ [].

(** Twenty-four rows, one a second. *)
Definition demo_frame24 : DataFrame pyobj :=
  mkDataFrame 24
    [("created", map (fun i => Timestamp (Z.of_nat i * 1000000)) (seq 0 24));
     ("outdoor_temperature", map (fun i => Obj (PyInt (Z.of_nat i))) (seq 0 24))].

(** The second of three rows has no timestamp. *)
Definition demo_frame_nat : DataFrame pyobj :=
  mkDataFrame 3
    [("created", [Timestamp 1454768864000000; NaT;
                  Timestamp 1454768866000000]);
     ("outdoor_temperature", [Obj (PyInt 4); Obj (PyInt 5); Obj (PyInt 6)])].

(** A table with the columns the driver selects, one row. *)
Definition demo_frame_main : DataFrame pyobj :=
  mkDataFrame 1
    [("ewt_1", [Obj (PyInt 7)]);
     ("lwt_1", [Obj (PyInt 5)]);
     ("compressor_1", [Obj (PyInt 2100)]);
     ("created", [Timestamp 1454768864000000]);
     ("q_1_device", [Obj (PyInt 3)]);
     ("auxiliary_1", [Obj (PyInt 0)]);
     ("heat_flow_1", [NaN]);
     ("outdoor_temperature", [NaN])].

(** No [outdoor_temperature] column. *)
Definition demo_frame_no_outdoor : DataFrame pyobj :=
  mkDataFrame 1
    [("created", [Timestamp 1454768864000000]);
     ("ewt_1", [Obj (PyInt 7)])].

Definition demo_world_no_outdoor : world pyobj :=
  mkWorld demo_frame_no_outdoor ∅ [].


(** * Properties *)

(** ** Filling missing values *)

Section Fills.
Context {V : Type} `{PyScalar V}.
Implicit Types (s : list (cell V)) (c v u : cell V) (last : option (cell V)).

Lemma ffill_from_length last s : length (ffill_from last s) = length s.
Proof.
  revert last. induction s as [|c s IH]; intros last; simpl; [done|].
  destruct (isna c); simpl; by rewrite IH.
Qed.

Lemma ffill_from_keeps last s i c :
  s !! i = Some c → isna c = false → ffill_from last s !! i = Some c.
Proof.
  revert last i. induction s as [|a s IH]; intros last i Hi Hc; [done|].
  destruct i as [|i]; simpl in *.
  - injection Hi as ->. by rewrite Hc.
  - destruct (isna a); simpl; by apply IH.
Qed.

Lemma ffill_from_leading last s i c :
  s !! i = Some c → isna c = true →
  (∀ k u, (k < i)%nat → s !! k = Some u → isna u = true) →
  ffill_from last s !! i = Some (default c last).
Proof.
  revert last i. induction s as [|a s IH]; intros last i Hi Hc Hlead; [done|].
  destruct i as [|i]; simpl in *.
  - injection Hi as ->. by rewrite Hc.
  - rewrite (Hlead 0%nat a) by (done || lia). simpl.
    apply IH; [done..|]. intros k u Hk Hu. apply (Hlead (S k)); [lia|done].
Qed.

Lemma ffill_from_takes last s i c k v :
  s !! i = Some c → isna c = true →
  (k < i)%nat → s !! k = Some v → isna v = false →
  (∀ k' u, (k < k' < i)%nat → s !! k' = Some u → isna u = true) →
  ffill_from last s !! i = Some v.
Proof.
  revert last i k. induction s as [|a s IH]; intros last i k Hi Hc Hk Hv Hnv Hgap;
    [done|].
  destruct i as [|i]; [lia|]. simpl in Hi.
  destruct k as [|k]; simpl in Hv.
  - injection Hv as ->. simpl. rewrite Hnv. simpl.
    rewrite (ffill_from_leading (Some v) s i c); [done..|].
    intros k u Hk' Hu. apply (Hgap (S k)); [lia|done].
  - simpl. destruct (isna a); simpl;
      (apply (IH _ i k); [done|done|lia|done|done|]);
      intros k' u Hk' Hu; apply (Hgap (S k')); (lia || done).
Qed.

Lemma fillna_zero_lookup s i c :
  s !! i = Some c →
  fillna_zero s !! i = Some (if isna c then Obj py_zero else c).
Proof. intros Hi. unfold fillna_zero. by rewrite list_lookup_fmap, Hi. Qed.

End Fills.

(** ** Renaming and filling in place *)

Section Normalize.
Context {V : Type} `{PyScalar V}.
Implicit Types (df : DataFrame V) (w : world V) (m : gmap string string).

Lemma setitem_with_inv name f df df' :
  setitem_with name f df = inr df' →
  name ∈ columns df ∧
  df' = mkDataFrame (nrows df)
          (map (fun p => if String.eqb p.1 name then (p.1, f p.2) else p)
               (series df)).
Proof.
  unfold setitem_with. case_bool_decide; [|done]. by intros [= <-].
Qed.

Lemma setitem_with_ok name f df :
  name ∈ columns df → ∃ df', setitem_with name f df = inr df'.
Proof.
  intros Hin. unfold setitem_with. rewrite bool_decide_eq_true_2 by done. eauto.
Qed.

Lemma setitem_with_missing name f df :
  name ∉ columns df → setitem_with name f df = inl (KeyError name).
Proof.
  intros Hin. unfold setitem_with. by rewrite bool_decide_eq_false_2.
Qed.

Lemma setitem_with_nrows name f df df' :
  setitem_with name f df = inr df' → nrows df' = nrows df.
Proof. by intros [_ ->]%setitem_with_inv. Qed.

Lemma setitem_with_columns name f df df' :
  setitem_with name f df = inr df' → columns df' = columns df.
Proof.
  intros [_ ->]%setitem_with_inv. unfold columns. simpl.
  induction (series df) as [|[l s] ps IH]; simpl; [done|].
  destruct (String.eqb l name); simpl; f_equal; apply IH.
Qed.

Lemma setitem_with_series name f df df' j l s :
  setitem_with name f df = inr df' →
  series df !! j = Some (l, s) →
  series df' !! j = Some (l, if String.eqb l name then f s else s).
Proof.
  intros [_ ->]%setitem_with_inv Hj. simpl.
  rewrite list_lookup_fmap, Hj. simpl. by destruct (String.eqb l name).
Qed.

Lemma setitem_with_row_getitem name f df df' i column :
  setitem_with name f df = inr df' → column ≠ name →
  row_getitem df' i column = row_getitem df i column.
Proof.
  intros [_ ->]%setitem_with_inv Hne. unfold row_getitem. simpl.
  induction (series df) as [|[l s] ps IH]; simpl; [done|].
  destruct (String.eqb_spec l name) as [->|Hl]; simpl.
  - rewrite !filter_cons_False by (simpl; congruence). done.
  - destruct (decide (l = column)) as [->|Hc].
    + rewrite !filter_cons_True by done. simpl. by rewrite IH.
    + rewrite !filter_cons_False by done. done.
Qed.

Lemma rename_nrows m df : nrows (rename m df) = nrows df.
Proof. done. Qed.

Lemma normalize_nrows m df df' :
  normalize m df = inr df' → nrows df' = nrows df.
Proof.
  unfold normalize. destruct (in_values _ m).
  - destruct (setitem_with "heat_flow_rate" _ _) as [e|df2] eqn:E2; [done|].
    intros E3. rewrite (setitem_with_nrows _ _ _ _ E3).
    by rewrite (setitem_with_nrows _ _ _ _ E2).
  - intros E3. by rewrite (setitem_with_nrows _ _ _ _ E3).
Qed.

Lemma normalize_columns m df df' :
  normalize m df = inr df' → columns df' = columns (rename m df).
Proof.
  unfold normalize. destruct (in_values _ m).
  - destruct (setitem_with "heat_flow_rate" _ _) as [e|df2] eqn:E2; [done|].
    intros E3. rewrite (setitem_with_columns _ _ _ _ E3).
    by rewrite (setitem_with_columns _ _ _ _ E2).
  - intros E3. by rewrite (setitem_with_columns _ _ _ _ E3).
Qed.

Lemma normalize_has_outdoor m df df' :
  normalize m df = inr df' → "outdoor_temperature" ∈ columns (rename m df).
Proof.
  unfold normalize. destruct (in_values _ m).
  - destruct (setitem_with "heat_flow_rate" _ _) as [e|df2] eqn:E2; [done|].
    intros [Hin _]%setitem_with_inv.
    by rewrite (setitem_with_columns _ _ _ _ E2) in Hin.
  - by intros [Hin _]%setitem_with_inv.
Qed.

Lemma normalize_created m df df' i :
  normalize m df = inr df' →
  row_getitem df' i "created" = row_getitem (rename m df) i "created".
Proof.
  unfold normalize. destruct (in_values _ m).
  - destruct (setitem_with "heat_flow_rate" _ _) as [e|df2] eqn:E2; [done|].
    intros E3. rewrite (setitem_with_row_getitem _ _ _ _ _ _ E3) by done.
    by rewrite (setitem_with_row_getitem _ _ _ _ _ _ E2).
  - intros E3. by rewrite (setitem_with_row_getitem _ _ _ _ _ _ E3).
Qed.

Lemma normalize_missing_outdoor m df :
  "outdoor_temperature" ∉ columns (rename m df) →
  normalize m df = inl (KeyError "outdoor_temperature") ∨
  normalize m df = inl (KeyError "heat_flow_rate").
Proof.
  intros Hno. unfold normalize. destruct (in_values _ m).
  - destruct (setitem_with "heat_flow_rate" _ _) as [e|df2] eqn:E2.
    + right. unfold setitem_with in E2. case_bool_decide; [done|].
      by injection E2 as <-.
    + left. apply setitem_with_missing.
      by rewrite (setitem_with_columns _ _ _ _ E2).
  - left. by apply setitem_with_missing.
Qed.

Lemma normalized_frame_ok m df df' :
  normalize m df = inr df' → normalized_frame m df = df'.
Proof.
  unfold normalize, normalized_frame.
  destruct (if in_values _ m then _ else _) as [e|df2]; [done|].
  by intros ->.
Qed.

(** What lines 77-80 do to the world: the outcome is that of [normalize],
    the table is left as far as the lines got, nothing else is touched. *)
Lemma normalize_inplace_run m w :
  normalize_inplace m w =
    (match normalize m (frame w) with inl e => inl e | inr _ => inr tt end,
     mkWorld (normalized_frame m (frame w)) (files w) (stdout w)).
Proof.
  unfold normalize_inplace, normalize, normalized_frame, rename_inplace,
    setitem_inplace, bind, get_frame, put_frame, raise_or, ret. simpl.
  destruct (in_values _ m); simpl.
  - destruct (setitem_with "heat_flow_rate" _ _) as [e|df2]; simpl; [done|].
    by destruct (setitem_with "outdoor_temperature" _ _).
  - by destruct (setitem_with "outdoor_temperature" _ _).
Qed.

End Normalize.

(** ** The chunk count and the split *)

Section Chunking.
Local Open Scope nat_scope.

Lemma chunk_count_pos (n : nat) (chunk_size : Z) :
  (0 < chunk_size)%Z →
  chunk_count n chunk_size = inr (Z.of_nat (n / Z.to_nat chunk_size)).
Proof.
  intros Hpos. unfold chunk_count.
  destruct (Z.eqb_spec chunk_size 0) as [->|_]; [lia|]. f_equal.
  rewrite Z.quot_div_nonneg by lia.
  rewrite Nat2Z.inj_div, Z2Nat.id by lia. done.
Qed.

Lemma chunk_count_small (n : nat) (chunk_size : Z) :
  (Z.of_nat n < chunk_size)%Z → chunk_count n chunk_size = inr 0%Z.
Proof.
  intros Hlt. unfold chunk_count.
  destruct (Z.eqb_spec chunk_size 0) as [->|_]; [lia|]. f_equal.
  apply Z.quot_small. lia.
Qed.

Lemma chunk_count_bounds (n : nat) (chunk_size : Z) :
  (0 < chunk_size)%Z → (chunk_size ≤ Z.of_nat n)%Z →
  1 ≤ n / Z.to_nat chunk_size ≤ n.
Proof.
  intros Hpos Hle. set (c := Z.to_nat chunk_size).
  assert (1 ≤ c ≤ n) as [Hc Hcn] by lia. split.
  - apply Nat.div_le_lower_bound; lia.
  - apply Nat.Div0.div_le_upper_bound. nia.
Qed.

Lemma cumsum_from_lookup acc (l : list nat) i :
  i < length l →
  cumsum_from acc l !! i = Some (acc + sum_list (take (S i) l)).
Proof.
  revert acc i. induction l as [|x l IH]; intros acc i Hi; simpl in *; [lia|].
  destruct i as [|i]; simpl.
  - f_equal. destruct l; simpl; lia.
  - rewrite IH by lia. f_equal. simpl. lia.
Qed.

Lemma sum_take_sizes each extras rest j :
  j ≤ extras + rest →
  sum_list (take j (replicate extras (each + 1) ++ replicate rest each))
  = j * each + Nat.min j extras.
Proof.
  intros Hj. rewrite take_app, !take_replicate, sum_list_with_app,
    !sum_list_replicate, length_replicate.
  destruct (Nat.le_gt_cases j extras).
  - rewrite (Nat.min_l j extras), (Nat.min_l (j - extras)) by lia. nia.
  - rewrite (Nat.min_r j extras), (Nat.min_l (j - extras)) by lia. nia.
Qed.

Lemma div_points_nth total sections i :
  0 < sections → i ≤ sections →
  nth i (div_points total sections) 0 = part_start total sections i.
Proof.
  intros Hk Hi. unfold div_points, section_sizes, cumsum, part_start. simpl.
  destruct i as [|i]; [done|].
  assert (total mod sections < sections) by (apply Nat.mod_upper_bound; lia).
  rewrite nth_lookup, cumsum_from_lookup; simpl.
  - rewrite sum_take_sizes by lia. done.
  - rewrite length_app, !length_replicate. lia.
Qed.

Lemma part_start_0 total sections : part_start total sections 0 = 0.
Proof. done. Qed.

Lemma part_start_end total sections :
  0 < sections → part_start total sections sections = total.
Proof.
  intros Hk. unfold part_start.
  assert (total mod sections < sections) by (apply Nat.mod_upper_bound; lia).
  rewrite Nat.min_r by lia.
  rewrite (Nat.div_mod_eq total sections) at 3. lia.
Qed.

Lemma part_start_step total sections i :
  part_start total sections (S i) =
  part_start total sections i + total / sections
  + (if decide (i < total mod sections) then 1 else 0).
Proof. unfold part_start. case_decide; lia. Qed.

Lemma part_start_mono total sections i j :
  i ≤ j → part_start total sections i ≤ part_start total sections j.
Proof. intros Hij. unfold part_start. nia. Qed.

Lemma part_start_le total sections i :
  0 < sections → i ≤ sections → part_start total sections i ≤ total.
Proof.
  intros Hk Hi. rewrite <-(part_start_end total sections Hk) at 2.
  by apply part_start_mono.
Qed.

(** Consecutive ranges laid end to end are one range. *)
Lemma concat_ranges (start : nat → nat) k :
  start 0 = 0 → (∀ i, i < k → start i ≤ start (S i)) →
  concat (map (fun i => seq (start i) (start (S i) - start i)) (seq 0 k))
  = seq 0 (start k).
Proof.
  intros H0 Hmono. induction k as [|k IH].
  - simpl. by rewrite H0.
  - rewrite seq_S, map_app, concat_app, IH by (intros; apply Hmono; lia).
    simpl. rewrite app_nil_r.
    assert (start k ≤ start (S k)) by (apply Hmono; lia).
    replace (start (S k)) with (start k + (start (S k) - start k)) at 2 by lia.
    by rewrite seq_app.
Qed.

End Chunking.

(** ** Splitting a table and encoding its rows *)

Section Split.
Context {V : Type} `{PyScalar V}.
Implicit Types (df : DataFrame V).
Local Open Scope nat_scope.

Lemma array_split_nonpos df (sections : Z) :
  (sections ≤ 0)%Z → array_split df sections = inl ValueError.
Proof.
  intros Hs. unfold array_split.
  destruct (Z.leb_spec sections 0); [done|lia].
Qed.

Lemma array_split_pos df (k : nat) :
  0 < k → array_split df (Z.of_nat k) = inr (parts df k).
Proof.
  intros Hk. unfold array_split, parts.
  destruct (Z.leb_spec (Z.of_nat k) 0); [lia|]. rewrite Nat2Z.id. f_equal.
  apply map_ext_in. intros i [_ Hi]%in_seq.
  rewrite !div_points_nth by lia. done.
Qed.

Lemma slice_rows_nrows st en df :
  st ≤ en → en ≤ nrows df → nrows (slice_rows st en df) = en - st.
Proof. intros. simpl. lia. Qed.

Lemma slice_rows_columns st en df :
  columns (slice_rows st en df) = columns df.
Proof.
  unfold columns. simpl. induction (series df) as [|[l s] ps IH]; simpl;
    [done|]. f_equal. apply IH.
Qed.

Lemma nth_slice (s : list (cell V)) st n r :
  r < n → nth r (take n (drop st s)) NaN = nth (st + r) s NaN.
Proof.
  intros Hr. by rewrite !nth_lookup, lookup_take_lt, lookup_drop.
Qed.

Lemma slice_rows_row_getitem st en df r column :
  r < en - st →
  row_getitem (slice_rows st en df) r column = row_getitem df (st + r) column.
Proof.
  intros Hr. unfold row_getitem. simpl.
  induction (series df) as [|[l s] ps IH]; simpl; [done|].
  destruct (decide (l = column)) as [->|Hc].
  - rewrite !filter_cons_True by done. simpl. by rewrite IH, nth_slice.
  - rewrite !filter_cons_False by done. done.
Qed.

Lemma slice_rows_row st en df r :
  r < en - st → row (slice_rows st en df) r = row df (st + r).
Proof.
  intros Hr. unfold row. simpl.
  induction (series df) as [|[l s] ps IH]; simpl; [done|].
  by rewrite IH, nth_slice.
Qed.

Lemma seq_from (st n : nat) : seq st n = Nat.add st <$> seq 0 n.
Proof. rewrite fmap_add_seq. f_equal. lia. Qed.

Lemma slice_rows_rows st en df :
  st ≤ en → en ≤ nrows df →
  rows (slice_rows st en df) = map (row df) (seq st (en - st)).
Proof.
  intros Hle Hen. unfold rows. rewrite slice_rows_nrows by done.
  rewrite (seq_from st). change (map ?f ?l) with (f <$> l).
  rewrite <-list_fmap_compose. apply list_fmap_ext.
  intros i r [-> Hr]%lookup_seq. simpl. by apply slice_rows_row.
Qed.

Lemma length_parts df k : length (parts df k) = k.
Proof. unfold parts. by rewrite length_map, length_seq. Qed.

Lemma parts_lookup df k i :
  i < k →
  parts df k !! i = Some (slice_rows (part_start (nrows df) k i)
                                     (part_start (nrows df) k (S i)) df).
Proof.
  intros Hi. unfold parts. change (map ?f ?l) with (f <$> l).
  by rewrite list_lookup_fmap, lookup_seq_lt.
Qed.

Lemma parts_lookup_inv df k i part :
  parts df k !! i = Some part →
  i < k ∧ part = slice_rows (part_start (nrows df) k i)
                            (part_start (nrows df) k (S i)) df.
Proof.
  intros Hi. assert (i < k) as Hlt.
  { apply lookup_lt_Some in Hi. by rewrite length_parts in Hi. }
  rewrite parts_lookup in Hi by done. split; [done|]. by injection Hi.
Qed.

Lemma parts_nrows df k i part :
  parts df k !! i = Some part →
  nrows part = part_start (nrows df) k (S i) - part_start (nrows df) k i.
Proof.
  intros [Hi ->]%parts_lookup_inv. apply slice_rows_nrows.
  - apply part_start_mono. lia.
  - apply part_start_le; lia.
Qed.

Lemma parts_rows df k :
  0 < k → concat (rows <$> parts df k) = rows df.
Proof.
  intros Hk. unfold parts, rows at 2.
  replace (seq 0 (nrows df)) with (seq 0 (part_start (nrows df) k k))
    by (by rewrite part_start_end).
  rewrite <-(concat_ranges (part_start (nrows df) k) k)
    by (done || intros; apply part_start_mono; lia).
  rewrite concat_map. f_equal.
  change (map ?f ?l) with (f <$> l). rewrite <-!list_fmap_compose.
  apply list_fmap_ext. intros i j [-> Hi]%lookup_seq. simpl.
  apply slice_rows_rows.
  - apply part_start_mono. lia.
  - apply part_start_le; lia.
Qed.

Lemma parts_nrows_sum df k :
  0 < k → sum_list (nrows <$> parts df k) = nrows df.
Proof.
  intros Hk.
  assert (length (concat (rows <$> parts df k)) = nrows df) as Hlen.
  { rewrite parts_rows by done. unfold rows. by rewrite length_map, length_seq. }
  rewrite length_concat in Hlen. rewrite <-Hlen. f_equal.
  rewrite <-list_fmap_compose. apply list_fmap_ext. intros i part Hpart.
  simpl. unfold rows. by rewrite length_map, length_seq.
Qed.

(** The encoding of a row reads the table through [row[column]] only. *)
Lemma row_timestamp_ext df1 i1 df2 i2 :
  row_getitem df1 i1 "created" = row_getitem df2 i2 "created" →
  row_timestamp df1 i1 = row_timestamp df2 i2.
Proof. unfold row_timestamp. by intros ->. Qed.

Lemma columns_loop_ext df1 i1 df2 i2 cols ms bound :
  (∀ column, row_getitem df1 i1 column = row_getitem df2 i2 column) →
  columns_loop df1 i1 cols ms bound = columns_loop df2 i2 cols ms bound.
Proof.
  intros Hrow. revert ms bound.
  induction cols as [|column cols IH]; intros ms bound; simpl; [done|].
  rewrite (row_timestamp_ext df1 i1 df2 i2) by apply Hrow.
  rewrite Hrow. destruct (row_timestamp df2 i2); [done|]. apply IH.
Qed.

Lemma lp_line_slice lr cols st en df r :
  r < en - st →
  lp_line lr cols (slice_rows st en df) r = lp_line lr cols df (st + r).
Proof.
  intros Hr. unfold lp_line.
  rewrite (columns_loop_ext _ r df (st + r)); [done|].
  intros column. by apply slice_rows_row_getitem.
Qed.

Lemma columns_loop_run df i cols ms bound ts :
  row_timestamp df i = inr ts →
  columns_loop df i cols ms bound =
    inr (match cols with
         | [] => bound
         | _ => Some (join "," (ms ++ measures cols df i), ts)
         end).
Proof.
  intros Hts. revert ms bound.
  induction cols as [|column cols IH]; intros ms bound; simpl; [done|].
  rewrite Hts, IH. f_equal. unfold measures.
  destruct (String.eqb_spec column "created") as [->|Hc].
  - rewrite filter_cons_False by (intros Hne; by apply Hne).
    destruct cols; simpl; [by rewrite app_nil_r|done].
  - rewrite filter_cons_True by done.
    destruct cols; simpl; [done|]. by rewrite <-app_assoc.
Qed.

Lemma row_timestamp_ok df i us :
  row_getitem df i "created" = [Timestamp us] →
  row_timestamp df i = inr (created_text df i).
Proof. unfold row_timestamp, created_text. by intros ->. Qed.

(** The line of a row in closed form. *)
Lemma lp_line_ok lr cols df i us :
  cols ≠ [] → row_getitem df i "created" = [Timestamp us] →
  lp_line lr cols df i = inr (lp_text lr cols df i).
Proof.
  intros Hcols Hcreated. unfold lp_line.
  rewrite (columns_loop_run df i cols [] None _ (row_timestamp_ok df i us Hcreated)).
  by destruct cols.
Qed.

Lemma has_timestamps_row df i :
  has_timestamps df = true → i < nrows df →
  ∃ us, row_getitem df i "created" = [Timestamp us].
Proof.
  unfold has_timestamps. rewrite forallb_forall. intros Hall Hi.
  specialize (Hall i). rewrite in_seq in Hall. specialize (Hall ltac:(lia)).
  destruct (row_getitem df i "created") as [|[| | |us|] [|]]; try done. eauto.
Qed.

Lemma try_map_ok {A B} (f : A → exn + B) (g : A → B) (l : list A) :
  (∀ x, x ∈ l → f x = inr (g x)) → try_map f l = inr (map g l).
Proof.
  induction l as [|x l IH]; intros Hf; simpl; [done|].
  rewrite (Hf x) by left. rewrite IH; [done|].
  intros y Hy. apply Hf. by right.
Qed.

Lemma lp_lines_slice lr cols st en df (texts : nat → string) :
  st ≤ en → en ≤ nrows df →
  (∀ r, r < nrows df → lp_line lr cols df r = inr (texts r)) →
  lp_lines lr cols (slice_rows st en df) = inr (map texts (seq st (en - st))).
Proof.
  intros Hle Hen Htexts. unfold lp_lines. rewrite slice_rows_nrows by done.
  rewrite (try_map_ok _ (fun r => texts (st + r))).
  - f_equal. rewrite (seq_from st).
    change (map ?f ?l) with (f <$> l). by rewrite <-list_fmap_compose.
  - intros r [_ Hr]%elem_of_seq. simpl in Hr.
    rewrite lp_line_slice by done. apply Htexts. lia.
Qed.

End Split.

(** ** File names *)

Section Names.

Lemma append_nil_l (t : string) : "" ++ t = t.
Proof. reflexivity. Qed.

Lemma append_cons (a : ascii) (s t : string) :
  String a s ++ t = String a (s ++ t).
Proof. reflexivity. Qed.

Lemma length_append (s t : string) :
  String.length (s ++ t) = (String.length s + String.length t)%nat.
Proof.
  induction s as [|a s IH]; [done|].
  rewrite append_cons. simpl. by rewrite IH.
Qed.

Lemma append_inj_r (t s1 s2 : string) : s1 ++ t = s2 ++ t → s1 = s2.
Proof.
  revert s2. induction s1 as [|a s1 IH]; intros [|b s2] Heq.
  - done.
  - apply (f_equal String.length) in Heq.
    rewrite !length_append in Heq. simpl in Heq. lia.
  - apply (f_equal String.length) in Heq.
    rewrite !length_append in Heq. simpl in Heq. lia.
  - rewrite !append_cons in Heq. injection Heq as -> Heq. f_equal. by apply IH.
Qed.

Lemma append_inj_l (s t1 t2 : string) : s ++ t1 = s ++ t2 → t1 = t2.
Proof. apply (inj (String.append s)). Qed.

Lemma string_of_uint_inj (d d' : uint) :
  d ≠ Nil → d' ≠ Nil →
  NilZero.string_of_uint d = NilZero.string_of_uint d' → d = d'.
Proof.
  intros Hd Hd' Heq. apply (f_equal NilZero.uint_of_string) in Heq.
  rewrite !NilZero.usu in Heq by done. by injection Heq.
Qed.

Lemma nat_to_uint_nonnil (n : nat) : Nat.to_uint n ≠ Nil.
Proof.
  intros Hnil. pose proof (DecimalNat.Unsigned.to_of (Nat.to_uint n)) as Hnorm.
  rewrite DecimalNat.Unsigned.of_to, Hnil in Hnorm. done.
Qed.

Lemma str_nat_inj (i j : nat) : str_nat i = str_nat j → i = j.
Proof.
  intros Heq. apply DecimalNat.Unsigned.to_uint_inj.
  apply string_of_uint_inj; auto using nat_to_uint_nonnil.
Qed.

Lemma lp_file_name_inj db_name slug (i j : nat) :
  lp_file_name db_name slug i = lp_file_name db_name slug j → i = j.
Proof.
  unfold lp_file_name, join. simpl. intros Heq.
  repeat (apply append_inj_l in Heq).
  apply append_inj_r in Heq. by apply str_nat_inj.
Qed.

End Names.

(** ** Running the loops *)

Section Loops.
Context {V : Type} `{PyScalar V}.
Implicit Types (df chunk : DataFrame V) (w : world V)
  (fs : gmap string (list string)).
Local Open Scope nat_scope.
Local Open Scope list_scope.

Lemma alter_snoc fs name acc (l : string) :
  fs !! name = Some acc →
  alter (fun ls => ls ++ [l]) name fs = <[name := acc ++ [l]]> fs.
Proof.
  intros Hacc. apply map_eq. intros k.
  destruct (decide (name = k)) as [<-|Hne].
  - by rewrite lookup_alter_eq, lookup_insert_eq, Hacc.
  - by rewrite lookup_alter_ne, lookup_insert_ne.
Qed.

Lemma write_rows_run name lr cols chunk rs lines w acc :
  try_map (lp_line lr cols chunk) rs = inr lines →
  files w !! name = Some acc →
  for_each rs (fun r =>
    bind (raise_or (lp_line lr cols chunk r)) (fun l => fwrite name l)) w
  = (inr tt, mkWorld (frame w) (<[name := acc ++ lines]> (files w)) (stdout w)).
Proof.
  revert lines w acc. induction rs as [|r rs IH]; intros lines w acc Hl Hacc;
    simpl in Hl.
  - injection Hl as <-. rewrite app_nil_r, insert_id by done. by destruct w.
  - destruct (lp_line lr cols chunk r) as [e|l] eqn:El; [done|].
    destruct (try_map _ rs) as [e|ls] eqn:Els; [done|]. injection Hl as <-.
    simpl. unfold bind at 1. unfold bind at 1. unfold raise_or. rewrite El.
    unfold fwrite at 1. rewrite (alter_snoc _ _ acc) by done.
    rewrite (IH ls _ (acc ++ [l])); simpl.
    + by rewrite insert_insert_eq, <-app_assoc.
    + done.
    + by rewrite lookup_insert_eq.
Qed.

Lemma write_chunk_run db_name slug lr cols i chunk lines w :
  lp_lines lr cols chunk = inr lines →
  write_chunk db_name slug lr cols i chunk w =
    (inr tt, mkWorld (frame w)
               (<[lp_file_name db_name slug i := lines]> (files w)) (stdout w)).
Proof.
  intros Hl. unfold write_chunk, bind at 1. unfold fopen.
  rewrite (write_rows_run _ _ _ _ _ lines _ []); simpl.
  - by rewrite insert_insert_eq.
  - done.
  - by rewrite lookup_insert_eq.
Qed.

Lemma write_parts_run db_name slug lr cols (part : nat → DataFrame V)
    (content : nat → list string) a n w :
  (∀ i, a ≤ i < a + n → lp_lines lr cols (part i) = inr (content i)) →
  for_each (seq a n) (fun i => write_chunk db_name slug lr cols i (part i)) w
  = (inr tt, mkWorld (frame w)
               (written db_name slug content (files w) (seq a n)) (stdout w)).
Proof.
  revert a w. induction n as [|n IH]; intros a w Hparts; simpl.
  - by destruct w.
  - unfold bind at 1. rewrite (write_chunk_run _ _ _ _ _ _ (content a))
      by (apply Hparts; lia).
    rewrite IH by (intros; apply Hparts; lia). done.
Qed.

Lemma for_each_frame {A} (l : list A) (body : A → M V unit) w :
  (∀ x w0, frame (body x w0).2 = frame w0) →
  frame (for_each l body w).2 = frame w.
Proof.
  intros Hbody. revert w. induction l as [|x l IH]; intros w; [done|].
  cbn [for_each]. unfold bind at 1. specialize (Hbody x w).
  destruct (body x w) as [[e|[]] w1]; simpl in *; [done|]. by rewrite IH.
Qed.

Lemma write_chunk_frame db_name slug lr cols i chunk w :
  frame (write_chunk db_name slug lr cols i chunk w).2 = frame w.
Proof.
  unfold write_chunk, bind at 1. unfold fopen at 1.
  rewrite for_each_frame; [done|]. intros r w0.
  unfold bind, raise_or. destruct (lp_line lr cols chunk r); done.
Qed.

Lemma written_cons db_name slug content fs i indices :
  written db_name slug content fs (i :: indices) =
  written db_name slug content
    (<[lp_file_name db_name slug i := content i]> fs) indices.
Proof. done. Qed.

Lemma written_other db_name slug content fs indices name :
  (∀ i, i ∈ indices → lp_file_name db_name slug i ≠ name) →
  written db_name slug content fs indices !! name = fs !! name.
Proof.
  revert fs. induction indices as [|i indices IH]; intros fs Hname; [done|].
  rewrite written_cons, IH by (intros; apply Hname; by right).
  apply lookup_insert_ne. apply Hname. by left.
Qed.

Lemma written_lookup db_name slug content fs indices i :
  NoDup indices → i ∈ indices →
  written db_name slug content fs indices !! lp_file_name db_name slug i
  = Some (content i).
Proof.
  intros Hnd. revert fs. induction Hnd as [|j indices Hj Hnd IH]; intros fs Hi.
  - by apply elem_of_nil in Hi.
  - rewrite written_cons. apply elem_of_cons in Hi as [->|Hi].
    + rewrite written_other; [by rewrite lookup_insert_eq|].
      intros i Hi Heq. apply lp_file_name_inj in Heq. by subst.
    + by apply IH.
Qed.

End Loops.

(** ** write_files as a whole *)

Section Runs.
Context {V : Type} `{PyScalar V}.
Implicit Types (df : DataFrame V) (w : world V) (m : gmap string string).
Local Open Scope nat_scope.
Local Open Scope list_scope.

Lemma write_chunks_ok db_name uuid (chunk_size : Z) slug w :
  columns (frame w) ≠ [] →
  has_timestamps (frame w) = true →
  (0 < chunk_size)%Z → (chunk_size ≤ Z.of_nat (nrows (frame w)))%Z →
  let k := nrows (frame w) / Z.to_nat chunk_size in
  write_chunks db_name uuid chunk_size slug w =
    (inr tt,
     mkWorld (frame w)
       (written db_name slug
          (chunk_content (line_reference_of db_name uuid) (frame w) k)
          (files w) (seq 0 k))
       (stdout w ++ [str_nat k])).
Proof.
  intros Hcols Hts Hpos Hle k.
  destruct (chunk_count_bounds (nrows (frame w)) chunk_size Hpos Hle) as [Hk1 Hk2].
  fold k in Hk1, Hk2.
  unfold write_chunks. fold (line_reference_of db_name uuid).
  set (lr := line_reference_of db_name uuid).
  unfold bind at 1. unfold get_frame at 1.
  unfold bind at 1. unfold raise_or at 1. rewrite chunk_count_pos by done.
  fold k. unfold bind at 1. unfold raise_or at 1.
  rewrite array_split_pos by lia.
  unfold bind at 1. unfold print at 1.
  rewrite length_parts.
  rewrite (write_parts_run _ _ _ _ _ (chunk_content lr (frame w) k)); [done|].
  intros i Hi. simpl.
  rewrite (nth_lookup_Some _ _ _ _ (parts_lookup (frame w) k i ltac:(lia))).
  apply lp_lines_slice.
  - apply part_start_mono. lia.
  - apply part_start_le; lia.
  - intros r Hr. destruct (has_timestamps_row _ r Hts Hr) as [us Hus].
    by apply (lp_line_ok _ _ _ _ us).
Qed.

Lemma write_chunks_small db_name uuid (chunk_size : Z) slug w :
  (Z.of_nat (nrows (frame w)) < chunk_size)%Z →
  write_chunks db_name uuid chunk_size slug w = (inl ValueError, w).
Proof.
  intros Hlt. unfold write_chunks.
  unfold bind at 1. unfold get_frame at 1.
  unfold bind at 1. unfold raise_or at 1. rewrite chunk_count_small by done.
  unfold bind at 1. unfold raise_or at 1.
  by rewrite array_split_nonpos.
Qed.

Lemma write_files_run db_name uuid m (chunk_size : Z) slug w :
  write_files db_name uuid m chunk_size slug w =
    match normalize m (frame w) with
    | inl e => (inl e, mkWorld (normalized_frame m (frame w)) (files w) (stdout w))
    | inr _ =>
        write_chunks db_name uuid chunk_size slug
          (mkWorld (normalized_frame m (frame w)) (files w) (stdout w))
    end.
Proof.
  unfold write_files, bind. rewrite normalize_inplace_run.
  by destruct (normalize m (frame w)).
Qed.

Lemma write_chunks_frame db_name uuid (chunk_size : Z) slug w :
  frame (write_chunks db_name uuid chunk_size slug w).2 = frame w.
Proof.
  unfold write_chunks.
  unfold bind at 1. unfold get_frame at 1.
  unfold bind at 1. unfold raise_or at 1.
  destruct (chunk_count _ _) as [e|chunks]; [done|].
  unfold bind at 1. unfold raise_or at 1.
  destruct (array_split _ _) as [e|df_split]; [done|].
  unfold bind at 1. unfold print at 1.
  by rewrite for_each_frame by (intros; apply write_chunk_frame).
Qed.

Lemma write_files_frame db_name uuid m (chunk_size : Z) slug w :
  frame (write_files db_name uuid m chunk_size slug w).2 =
  normalized_frame m (frame w).
Proof.
  rewrite write_files_run. destruct (normalize m (frame w)); [done|].
  by rewrite write_chunks_frame.
Qed.

Lemma chunks_nat (n : nat) (chunk_size : Z) :
  (0 < chunk_size)%Z →
  Z.to_nat (Z.of_nat n / chunk_size) = n / Z.to_nat chunk_size.
Proof.
  intros Hpos. rewrite <-(Z2Nat.id chunk_size) at 1 by lia.
  by rewrite <-Nat2Z.inj_div, Nat2Z.id.
Qed.

Lemma chunks_Z (n : nat) (chunk_size : Z) :
  (0 < chunk_size)%Z →
  (Z.of_nat n / chunk_size)%Z = Z.of_nat (n / Z.to_nat chunk_size).
Proof.
  intros Hpos. rewrite <-(Z2Nat.id chunk_size) at 1 by lia.
  by rewrite <-Nat2Z.inj_div.
Qed.

(** A table that normalizes, with a timestamp in every row, and a chunk
    size between 1 and its row count: the call returns, and the world it
    leaves is this one. *)
Lemma write_files_ok db_name uuid m (chunk_size : Z) slug w df' :
  normalize m (frame w) = inr df' →
  has_timestamps df' = true →
  (0 < chunk_size)%Z → (chunk_size ≤ Z.of_nat (nrows (frame w)))%Z →
  let k := Z.to_nat (Z.of_nat (nrows (frame w)) / chunk_size) in
  write_files db_name uuid m chunk_size slug w =
    (inr tt,
     mkWorld df'
       (written db_name slug
          (chunk_content (line_reference_of db_name uuid) df' k)
          (files w) (seq 0 k))
       (stdout w ++ [str_nat k])).
Proof.
  intros Hn Hts Hpos Hle k. rewrite write_files_run, Hn.
  rewrite (normalized_frame_ok _ _ _ Hn).
  pose proof (normalize_nrows _ _ _ Hn) as Hrows.
  rewrite write_chunks_ok; simpl; rewrite ?Hrows; try done.
  - unfold k. by rewrite chunks_nat.
  - rewrite (normalize_columns _ _ _ Hn).
    pose proof (normalize_has_outdoor _ _ _ Hn) as Hin.
    intros Hnil. rewrite Hnil in Hin. by apply elem_of_nil in Hin.
Qed.

Lemma chunk_content_lines db_name uuid df k i part :
  columns df ≠ [] → has_timestamps df = true →
  parts df k !! i = Some part →
  lp_lines (line_reference_of db_name uuid) (columns df) part =
    inr (chunk_content (line_reference_of db_name uuid) df k i) ∧
  length (chunk_content (line_reference_of db_name uuid) df k i) = nrows part.
Proof.
  intros Hcols Hts Hpart. split.
  - apply parts_lookup_inv in Hpart as [Hi ->]. apply lp_lines_slice.
    + apply part_start_mono. lia.
    + apply part_start_le; lia.
    + intros r Hr. destruct (has_timestamps_row _ r Hts Hr) as [us Hus].
      by apply (lp_line_ok _ _ _ _ us).
  - unfold chunk_content. rewrite length_map, length_seq.
    by rewrite (parts_nrows _ _ _ _ Hpart).
Qed.

Lemma normalize_columns_nonempty m df df' :
  normalize m df = inr df' → columns df' ≠ [].
Proof.
  intros Hn. rewrite (normalize_columns _ _ _ Hn).
  pose proof (normalize_has_outdoor _ _ _ Hn) as Hin.
  intros Hnil. rewrite Hnil in Hin. by apply elem_of_nil in Hin.
Qed.

Lemma ceil_div (n k : nat) :
  0 < k → 0 < n mod k → (n + k - 1) / k = n / k + 1.
Proof.
  intros Hk Hr.
  assert (n mod k < k) by (apply Nat.mod_upper_bound; lia).
  symmetry. apply (Nat.div_unique _ _ _ (n mod k - 1)); [lia|].
  pose proof (Nat.div_mod_eq n k). lia.
Qed.

End Runs.

(** * The claims *)

Section Claims.
Context {V : Type} `{PyScalar V}.
Implicit Types (df : DataFrame V) (w : world V) (m : gmap string string).
Local Open Scope nat_scope.
Local Open Scope list_scope.

(** C1. For a table of R rows that normalizes and has a timestamp in every
    row, and a chunk size C (a positive number of lines) with R >= C,
    [write_files] returns and writes exactly R // C files: the parts
    [array_split] cuts the table into are R // C in number, their row counts
    sum to R, their rows laid end to end are the rows of the table in their
    order, and the file of index i holds the lines of part i, one per row.
    The file names are pairwise distinct and no other file is touched. *)
Theorem write_files_chunk_files db_name uuid m (chunk_size : Z) slug w df' :
  normalize m (frame w) = inr df' →
  has_timestamps df' = true →
  (0 < chunk_size)%Z → (chunk_size ≤ Z.of_nat (nrows (frame w)))%Z →
  let R := nrows (frame w) in
  let k := Z.to_nat (Z.of_nat R / chunk_size) in
  ∃ w',
    write_files db_name uuid m chunk_size slug w = (inr tt, w') ∧
    array_split df' (Z.of_nat R / chunk_size) = inr (parts df' k) ∧
    length (parts df' k) = k ∧
    sum_list (nrows <$> parts df' k) = R ∧
    concat (rows <$> parts df' k) = rows df' ∧
    (∀ i part, parts df' k !! i = Some part →
       ∃ lines,
         lp_lines (line_reference_of db_name uuid) (columns df') part = inr lines ∧
         length lines = nrows part ∧
         files w' !! lp_file_name db_name slug i = Some lines) ∧
    (∀ i j, i < k → j < k →
       lp_file_name db_name slug i = lp_file_name db_name slug j → i = j) ∧
    (∀ name, (∀ i, i < k → lp_file_name db_name slug i ≠ name) →
       files w' !! name = files w !! name).
Proof.
  intros Hn Hts Hpos Hle R k.
  pose proof (normalize_nrows _ _ _ Hn) as Hrows. fold R in Hrows.
  destruct (chunk_count_bounds R chunk_size Hpos Hle) as [Hk1 Hk2].
  assert (k = R / Z.to_nat chunk_size) as Hk by apply chunks_nat, Hpos.
  rewrite <-Hk in Hk1, Hk2.
  eexists. split; [by apply write_files_ok|]. simpl. fold R k.
  split; [|split; [|split; [|split; [|split; [|split]]]]].
  - rewrite <-(Z2Nat.id (Z.of_nat R / chunk_size)%Z)
      by (apply Z.div_pos; lia).
    fold k. apply array_split_pos. lia.
  - apply length_parts.
  - rewrite parts_nrows_sum by lia. done.
  - apply parts_rows. lia.
  - intros i part Hpart.
    destruct (chunk_content_lines db_name uuid df' k i part) as [Hl Hlen];
      [by eapply normalize_columns_nonempty|done..|].
    eexists. split; [exact Hl|]. split; [exact Hlen|].
    apply written_lookup; [apply NoDup_seq|].
    apply elem_of_seq. apply parts_lookup_inv in Hpart as [? _]. lia.
  - intros i j _ _. apply lp_file_name_inj.
  - intros name Hname. apply written_other.
    intros i [_ Hi]%elem_of_seq. apply Hname. lia.
Qed.

(** C9. The partition policy.  With k = R // C, part i has ceil(R / k) rows
    when i < R mod k and floor(R / k) rows otherwise; no part is empty; and
    the file of index i has as many lines as part i has rows, so a file can
    hold more than C lines (R = 15 and C = 8 give one file of 15 lines). *)
Theorem write_files_partition_policy db_name uuid m (chunk_size : Z) slug w df' :
  normalize m (frame w) = inr df' →
  has_timestamps df' = true →
  (0 < chunk_size)%Z → (chunk_size ≤ Z.of_nat (nrows (frame w)))%Z →
  let R := nrows (frame w) in
  let k := Z.to_nat (Z.of_nat R / chunk_size) in
  ∃ w',
    write_files db_name uuid m chunk_size slug w = (inr tt, w') ∧
    array_split df' (Z.of_nat R / chunk_size) = inr (parts df' k) ∧
    ∀ i, i < k →
      ∃ part lines,
        parts df' k !! i = Some part ∧
        nrows part = (if decide (i < R mod k) then (R + k - 1) / k else R / k) ∧
        0 < nrows part ∧
        files w' !! lp_file_name db_name slug i = Some lines ∧
        length lines = nrows part.
Proof.
  intros Hn Hts Hpos Hle R k.
  pose proof (normalize_nrows _ _ _ Hn) as Hrows. fold R in Hrows.
  destruct (chunk_count_bounds R chunk_size Hpos Hle) as [Hk1 Hk2].
  assert (k = R / Z.to_nat chunk_size) as Hk by apply chunks_nat, Hpos.
  rewrite <-Hk in Hk1, Hk2.
  eexists. split; [by apply write_files_ok|]. simpl. fold R k. split.
  { rewrite <-(Z2Nat.id (Z.of_nat R / chunk_size)%Z)
      by (apply Z.div_pos; lia).
    fold k. apply array_split_pos. lia. }
  intros i Hi.
  pose proof (parts_lookup df' k i Hi) as Hpart.
  destruct (chunk_content_lines db_name uuid df' k i _
              (normalize_columns_nonempty _ _ _ Hn) Hts Hpart) as [_ Hlen].
  eexists _, _. split; [exact Hpart|].
  assert (1 ≤ R / k) by (apply Nat.div_le_lower_bound; lia).
  rewrite (parts_nrows _ _ _ _ Hpart), part_start_step, Hrows.
  split; [|split; [|split]].
  - case_decide; [rewrite ceil_div|]; lia.
  - lia.
  - apply written_lookup; [apply NoDup_seq|]. apply elem_of_seq. lia.
  - rewrite Hlen, (parts_nrows _ _ _ _ Hpart), part_start_step, Hrows. done.
Qed.

(** C5. With R < C the chunk count is 0 and [array_split] rejects a split
    into zero sections: once the table is normalized, [write_files] raises
    that error with no file written and nothing printed. *)
Theorem write_files_zero_chunks db_name uuid m (chunk_size : Z) slug w df' :
  normalize m (frame w) = inr df' →
  (Z.of_nat (nrows (frame w)) < chunk_size)%Z →
  chunk_count (nrows df') chunk_size = inr 0%Z ∧
  array_split df' 0 = inl ValueError ∧
  write_files db_name uuid m chunk_size slug w =
    (inl ValueError, mkWorld df' (files w) (stdout w)).
Proof.
  intros Hn Hlt. pose proof (normalize_nrows _ _ _ Hn) as Hrows.
  split; [|split].
  - apply chunk_count_small. lia.
  - by apply array_split_nonpos.
  - rewrite write_files_run, Hn, (normalized_frame_ok _ _ _ Hn).
    apply write_chunks_small. simpl. lia.
Qed.

(** C6, as amended.  With R < C [write_files] raises: it writes no file and
    reports nothing. *)
Theorem write_files_small_table_raises db_name uuid m (chunk_size : Z) slug w :
  (Z.of_nat (nrows (frame w)) < chunk_size)%Z →
  ∃ e w',
    write_files db_name uuid m chunk_size slug w = (inl e, w') ∧
    files w' = files w ∧ stdout w' = stdout w.
Proof.
  intros Hlt. rewrite write_files_run.
  destruct (normalize m (frame w)) as [e|df'] eqn:Hn.
  - by eexists _, _.
  - rewrite write_chunks_small; [by eexists _, _|].
    simpl. rewrite (normalized_frame_ok _ _ _ Hn), (normalize_nrows _ _ _ Hn).
    done.
Qed.

(** C10. A table that has no [outdoor_temperature] column once renamed
    makes [write_files] raise KeyError, from the forward fill or, when the
    mapping targets [heat_flow_rate] and that column is missing too, from the
    zero fill before it; no file is written. *)
Theorem write_files_requires_outdoor_temperature
    db_name uuid m (chunk_size : Z) slug w :
  "outdoor_temperature" ∉ columns (rename m (frame w)) →
  ∃ e w',
    write_files db_name uuid m chunk_size slug w = (inl e, w') ∧
    (e = KeyError "outdoor_temperature" ∨ e = KeyError "heat_flow_rate") ∧
    files w' = files w.
Proof.
  intros Hno. rewrite write_files_run.
  destruct (normalize_missing_outdoor m (frame w) Hno) as [-> | ->];
    eexists _, _; (split; [done|]); split; auto.
Qed.

(** C3, as amended.  [write_files] renames and fills the caller's table in
    place: after the call the table object the caller passed in is the
    normalized table. *)
Theorem write_files_mutates_frame db_name uuid m (chunk_size : Z) slug w df' :
  normalize m (frame w) = inr df' →
  frame (write_files db_name uuid m chunk_size slug w).2 = df' ∧
  columns df' = columns (rename m (frame w)).
Proof.
  intros Hn. rewrite write_files_frame. split.
  - by apply normalized_frame_ok.
  - by apply normalize_columns.
Qed.

End Claims.

(** ** The fills, seen from the caller's table *)

Section FillClaims.
Context {V : Type} `{PyScalar V}.
Implicit Types (df : DataFrame V) (w : world V) (m : gmap string string)
  (s : list (cell V)).
Local Open Scope nat_scope.

Lemma in_values_spec v m : in_values v m = true ↔ ∃ key, m !! key = Some v.
Proof.
  unfold in_values. rewrite bool_decide_eq_true, list_elem_of_fmap. split.
  - intros [[key v'] [-> Hin]]. exists key. by apply elem_of_map_to_list.
  - intros [key Hkey]. exists (key, v). split; [done|].
    by apply elem_of_map_to_list.
Qed.

Lemma series_lookup_column df j l s :
  series df !! j = Some (l, s) → l ∈ columns df.
Proof.
  intros Hj. unfold columns. apply list_elem_of_fmap. exists (l, s).
  split; [done|]. by eapply list_elem_of_lookup_2.
Qed.

Lemma normalize_series_outdoor m df df' j s :
  normalize m df = inr df' →
  series (rename m df) !! j = Some ("outdoor_temperature", s) →
  series df' !! j = Some ("outdoor_temperature", ffill s).
Proof.
  unfold normalize. intros Hn Hj. destruct (in_values _ m).
  - destruct (setitem_with "heat_flow_rate" _ _) as [e|df2] eqn:E2; [done|].
    pose proof (setitem_with_series _ _ _ _ _ _ _ E2 Hj) as Hj2.
    simpl in Hj2. by rewrite (setitem_with_series _ _ _ _ _ _ _ Hn Hj2).
  - by rewrite (setitem_with_series _ _ _ _ _ _ _ Hn Hj).
Qed.

Lemma normalized_frame_series_heat_flow m df j s :
  series (rename m df) !! j = Some ("heat_flow_rate", s) →
  series (normalized_frame m df) !! j =
    Some ("heat_flow_rate", if in_values "heat_flow_rate" m then fillna_zero s else s).
Proof.
  intros Hj. unfold normalized_frame. destruct (in_values _ m).
  - destruct (setitem_with_ok "heat_flow_rate" fillna_zero (rename m df))
      as [df2 E2]; [by eapply series_lookup_column|].
    rewrite E2. pose proof (setitem_with_series _ _ _ _ _ _ _ E2 Hj) as Hj2.
    simpl in Hj2.
    destruct (setitem_with "outdoor_temperature" _ df2) as [e|df3] eqn:E3;
      [done|].
    by rewrite (setitem_with_series _ _ _ _ _ _ _ E3 Hj2).
  - destruct (setitem_with "outdoor_temperature" _ _) as [e|df3] eqn:E3;
      [done|].
    by rewrite (setitem_with_series _ _ _ _ _ _ _ E3 Hj).
Qed.

(** In a table in timestamp order the row after has the later Timestamp. *)
Lemma in_timestamp_order_next df i :
  in_timestamp_order df = true → S i < nrows df →
  ∃ a b, created_us df i = Some a ∧ created_us df (S i) = Some b ∧ (a < b)%Z.
Proof.
  unfold in_timestamp_order. rewrite forallb_forall. intros Hall Hi.
  specialize (Hall i). rewrite in_seq in Hall.
  destruct (created_us df i) as [a|]; [|by (discriminate Hall; lia)].
  destruct (created_us df (S i)) as [b|]; [|by (discriminate Hall; lia)].
  exists a, b. split; [done|]. split; [done|]. apply Z.ltb_lt, Hall. lia.
Qed.

(** So does every row further down. *)
Lemma in_timestamp_order_lt df i k :
  in_timestamp_order df = true → i < k < nrows df →
  ∃ a b, created_us df i = Some a ∧ created_us df k = Some b ∧ (a < b)%Z.
Proof.
  intros Hord. induction k as [|k IH]; intros [Hik Hk]; [lia|].
  destruct (in_timestamp_order_next df k Hord Hk) as (a & b & Ha & Hb & Hab).
  destruct (decide (i = k)) as [->|Hne]; [by exists a, b|].
  destruct IH as (a0 & a' & Ha0 & Ha' & Hlt); [lia|].
  rewrite Ha in Ha'. injection Ha' as <-.
  exists a0, b. split; [done|]. split; [done|]. lia.
Qed.

(** There a row with the earlier Timestamp stands before. *)
Lemma in_timestamp_order_before df i k ti tk :
  in_timestamp_order df = true → i < nrows df → k < nrows df →
  created_us df i = Some ti → created_us df k = Some tk → (tk < ti)%Z →
  k < i.
Proof.
  intros Hord Hi Hk Hti Htk Hlt.
  destruct (decide (k < i)) as [|Hge]; [done|].
  destruct (decide (i = k)) as [->|Hne].
  { rewrite Hti in Htk. injection Htk as <-. lia. }
  destruct (in_timestamp_order_lt df i k Hord) as (a & b & Ha & Hb & Hab);
    [lia|].
  rewrite Hti in Ha. injection Ha as <-.
  rewrite Htk in Hb. injection Hb as <-. lia.
Qed.

(** C4, as amended.  [write_files] forward-fills the column labelled
    [outdoor_temperature] along the rows.  On a table whose rows stand in
    timestamp order, each [created] entry a Timestamp later than that of
    the row before it, this is a fill in timestamp order: a value that is
    not missing is kept; a missing value, read at the instant [ti], with a
    value [v] at an earlier instant [tk] and only missing values at the
    instants between the two, becomes [v]; a missing value with only
    missing values at the earlier instants stays as it is.  So
    [NaN, a, NaN, b] becomes [NaN, a, a, b]. *)
Theorem write_files_forward_fills db_name uuid m (chunk_size : Z) slug w df' j s :
  normalize m (frame w) = inr df' →
  series (rename m (frame w)) !! j = Some ("outdoor_temperature", s) →
  length s = nrows df' →
  in_timestamp_order df' = true →
  series (frame (write_files db_name uuid m chunk_size slug w).2) !! j
    = Some ("outdoor_temperature", ffill s) ∧
  length (ffill s) = length s ∧
  (∀ i c, s !! i = Some c → isna c = false → ffill s !! i = Some c) ∧
  (∀ i c ti k v tk,
     s !! i = Some c → isna c = true → created_us df' i = Some ti →
     s !! k = Some v → isna v = false → created_us df' k = Some tk →
     (tk < ti)%Z →
     (∀ k' u tk',
        s !! k' = Some u → created_us df' k' = Some tk' →
        (tk < tk' < ti)%Z → isna u = true) →
     ffill s !! i = Some v) ∧
  (∀ i c ti,
     s !! i = Some c → isna c = true → created_us df' i = Some ti →
     (∀ k u tk,
        s !! k = Some u → created_us df' k = Some tk → (tk < ti)%Z →
        isna u = true) →
     ffill s !! i = Some c) ∧
  (∀ a b : V, ffill [NaN; Obj a; NaN; Obj b] = [NaN; Obj a; Obj a; Obj b]).
Proof.
  intros Hn Hj Hlen Hord. split; [|split; [|split; [|split; [|split]]]].
  - rewrite write_files_frame, (normalized_frame_ok _ _ _ Hn).
    by apply (normalize_series_outdoor m (frame w)).
  - apply ffill_from_length.
  - intros i c. apply ffill_from_keeps.
  - intros i c ti k v tk Hi Hc Hti Hk Hv Htk Hlt Hgap.
    pose proof (lookup_lt_Some _ _ _ Hi) as Hi_lt.
    pose proof (lookup_lt_Some _ _ _ Hk) as Hk_lt.
    rewrite Hlen in Hi_lt, Hk_lt.
    pose proof (in_timestamp_order_before df' i k ti tk Hord Hi_lt Hk_lt
                  Hti Htk Hlt) as Hki.
    apply (ffill_from_takes None s i c k v Hi Hc Hki Hk Hv).
    intros k' u Hrange Hk'.
    destruct (in_timestamp_order_lt df' k k' Hord) as (a & b & Ha & Hb & Hab);
      [lia|].
    destruct (in_timestamp_order_lt df' k' i Hord) as (b' & a' & Hb' & Ha' & Hba);
      [lia|].
    rewrite Htk in Ha. injection Ha as <-.
    rewrite Hti in Ha'. injection Ha' as <-.
    rewrite Hb in Hb'. injection Hb' as <-.
    apply (Hgap k' u b Hk' Hb). lia.
  - intros i c ti Hi Hc Hti Hlead. unfold ffill.
    pose proof (lookup_lt_Some _ _ _ Hi) as Hi_lt. rewrite Hlen in Hi_lt.
    rewrite (ffill_from_leading None s i c); [done..|].
    intros k u Hk Hu.
    destruct (in_timestamp_order_lt df' k i Hord) as (a & b & Ha & Hb & Hab);
      [lia|].
    rewrite Hti in Hb. injection Hb as <-. by apply (Hlead k u a Hu Ha).
  - done.
Qed.

(** C7. The column labelled [heat_flow_rate] after [write_files]: when the
    mapping has [heat_flow_rate] among its target names every missing value
    of the column is replaced by 0 and the other values are kept; when it has
    not, the column is as it was. *)
Theorem write_files_zero_fills db_name uuid m (chunk_size : Z) slug w j s :
  series (rename m (frame w)) !! j = Some ("heat_flow_rate", s) →
  let after := frame (write_files db_name uuid m chunk_size slug w).2 in
  ((∃ key, m !! key = Some "heat_flow_rate") →
     series after !! j = Some ("heat_flow_rate", fillna_zero s) ∧
     length (fillna_zero s) = length s ∧
     ∀ i c, s !! i = Some c →
       fillna_zero s !! i = Some (if isna c then Obj py_zero else c)) ∧
  ((¬ ∃ key, m !! key = Some "heat_flow_rate") →
     series after !! j = Some ("heat_flow_rate", s)).
Proof.
  intros Hj after. unfold after. rewrite write_files_frame.
  rewrite (normalized_frame_series_heat_flow _ _ _ _ Hj).
  split; intros Hv.
  - apply in_values_spec in Hv. rewrite Hv. split; [done|]. split.
    + unfold fillna_zero. apply length_map.
    + apply fillna_zero_lookup.
  - destruct (in_values "heat_flow_rate" m) eqn:E; [|done].
    apply in_values_spec in E. done.
Qed.

End FillClaims.

(** ** Splitting and joining text *)

Section Text.
Implicit Types (s t : string) (a c : ascii) (P Q : ascii → bool).


Lemma string_forall_impl P Q s :
  (∀ a, P a = true → Q a = true) →
  string_forall P s = true → string_forall Q s = true.
Proof.
  intros HPQ. induction s as [|a s IH]; simpl; [done|].
  intros [Ha Hs]%andb_prop. rewrite (HPQ a Ha). by apply IH.
Qed.



Lemma split_free c s : free_of c s = true → split c s = [s].
Proof.
  induction s as [|a s IH]; intros Hs; simpl in *; [done|].
  apply andb_prop in Hs as [Ha Hs]. apply negb_true_iff in Ha.
  by rewrite Ha, IH.
Qed.





End Text.

(** ** The timestamp segment *)

Section Seconds.
Implicit Types (us q : Z) (s t : string).

Lemma append_assoc s t (u : string) : (s ++ t) ++ u = s ++ t ++ u.
Proof.
  induction s as [|a s IH]; [done|]. rewrite !append_cons. by rewrite IH.
Qed.

Lemma string_of_uint_digits (d : uint) :
  string_forall is_digit (NilEmpty.string_of_uint d) = true.
Proof. induction d; simpl; done. Qed.









End Seconds.

(** ** The line and its reading *)

Section LineClaims.
Context {V : Type} `{PyScalar V}.
Implicit Types (df : DataFrame V) (m : gmap string string).

Lemma columns_loop_raises df i cols ms bound e :
  row_timestamp df i = inl e → cols ≠ [] →
  columns_loop df i cols ms bound = inl e.
Proof. intros He Hcols. destruct cols; [done|]. simpl. by rewrite He. Qed.

Lemma lp_line_inv lr cols df i l :
  lp_line lr cols df i = inr l →
  cols ≠ [] ∧ ∃ ts, row_timestamp df i = inr ts ∧
    l = join " " [lr; join "," (measures cols df i); ts; newline].
Proof.
  unfold lp_line. intros Hl. destruct cols as [|c cols]; [done|].
  split; [done|]. destruct (row_timestamp df i) as [e|ts] eqn:Hts.
  - by rewrite (columns_loop_raises _ _ _ _ _ e) in Hl.
  - rewrite (columns_loop_run _ _ _ _ _ ts Hts) in Hl.
    injection Hl as <-. by exists ts.
Qed.

(** C2.  The line [lp_line] hands to [write] is the tag segment, a space,
    the field segment, a space, the timestamp segment, a space and the
    newline: the newline is joined as a fourth element, so a space stands
    between the timestamp and the newline, and the line is not the one the
    format describes. *)
Theorem lp_line_trailing_space lr cols df i l :
  lp_line lr cols df i = inr l →
  ∃ ts,
    row_timestamp df i = inr ts ∧
    l = lr ++ " " ++ join "," (measures cols df i) ++ " " ++ ts ++ " " ++ newline ∧
    l ≠ lr ++ " " ++ join "," (measures cols df i) ++ " " ++ ts ++ newline.
Proof.
  intros (_ & ts & Hts & ->)%lp_line_inv. exists ts. split; [done|].
  split; [done|]. unfold join at 1. simpl. intros Heq.
  repeat (apply append_inj_l in Heq). done.
Qed.

End LineClaims.

(** ** Reading a line back *)

Section RoundTrip.
Context {V : Type} `{PyScalar V}.
Implicit Types (df : DataFrame V) (m : gmap string string) (s t : string).

Lemma plain_free (c : ascii) s :
  Reader.is_delimiter c = true → Reader.plain s = true → free_of c s = true.
Proof.
  intros Hc. apply string_forall_impl. intros a Ha.
  apply negb_true_iff. apply negb_true_iff in Ha.
  destruct (Ascii.eqb_spec a c) as [->|]; [congruence|done].
Qed.

Lemma plain_no_space s :
  Reader.plain s = true →
  string_forall (fun a => negb (Ascii.eqb a " ")) s = true.
Proof. by apply (plain_free " "). Qed.






End RoundTrip.

(** * The claims on concrete tables *)

Section Examples.
Local Open Scope nat_scope.
Local Open Scope list_scope.

Example str_seconds_whole : str_seconds 1454768864000000 = "1454768864.0"%string.
Proof. reflexivity. Qed.

Example str_seconds_fraction :
  str_seconds 1454768864500000 = "1454768864.5"%string.
Proof. reflexivity. Qed.

Example str_seconds_before_epoch : str_seconds (-1500001) = "-1.500001"%string.
Proof. reflexivity. Qed.

Example str_seconds_exponent : str_seconds 12 = "1.2e-05"%string.
Proof. reflexivity. Qed.

Example div_points_15_2 : div_points 15 2 = [0; 8; 15].
Proof. reflexivity. Qed.

Example div_points_10_3 : div_points 10 3 = [0; 4; 7; 10].
Proof. reflexivity. Qed.

(** Twenty-four rows in chunks of eight: three files of eight lines. *)
Example write_files_24_by_8 :
  let r := write_files "otherm-data" "abc-123" ∅ 8 "site"
             (mkWorld demo_frame24 ∅ []) in
  r.1 = inr tt ∧
  size (files r.2) = 3 ∧
  map (fun i => length <$> files r.2 !! lp_file_name "otherm-data" "site" i)
      [0; 1; 2] = [Some 8; Some 8; Some 8] ∧
  stdout r.2 = ["3"%string].
Proof. vm_compute. repeat split; reflexivity. Qed.

(** A mapping that targets [heat_flow_rate] on a table without the source
    column: the zero fill raises, the table is left renamed. *)
Example write_files_missing_heat_flow :
  write_files "otherm-data" "abc-123" demo_mapping 1 "site"
    demo_world_no_outdoor
  = (inl (KeyError "heat_flow_rate"),
     mkWorld (rename demo_mapping demo_frame_no_outdoor) ∅ []).
Proof. vm_compute. reflexivity. Qed.

(** Three rows in chunks of two give one file of three lines. *)
Lemma write_files_chunk_files_demo :
  normalize demo_mapping (frame demo_world) = inr demo_normalized ∧
  has_timestamps demo_normalized = true ∧
  (0 < 2)%Z ∧ (2 ≤ Z.of_nat (nrows (frame demo_world)))%Z ∧
  ∃ w',
    write_files "otherm-data" "abc-123" demo_mapping 2 "site" demo_world
      = (inr tt, w') ∧
    length (parts demo_normalized 1) = 1 ∧
    sum_list (nrows <$> parts demo_normalized 1) = 3 ∧
    concat (rows <$> parts demo_normalized 1) = rows demo_normalized.
Proof.
  assert (normalize demo_mapping (frame demo_world) = inr demo_normalized)
    as H1 by (vm_compute; reflexivity).
  assert (has_timestamps demo_normalized = true) as H2 by reflexivity.
  assert (0 < 2)%Z as H3 by lia.
  assert (2 ≤ Z.of_nat (nrows (frame demo_world)))%Z as H4 by (simpl; lia).
  split; [exact H1|]. split; [exact H2|]. split; [exact H3|].
  split; [exact H4|].
  destruct (write_files_chunk_files "otherm-data" "abc-123" demo_mapping 2
              "site" demo_world demo_normalized H1 H2 H3 H4)
    as (w' & Hrun & _ & Hlen & Hsum & Hrows & _).
  exists w'. split; [exact Hrun|]. split; [exact Hlen|].
  split; [exact Hsum|exact Hrows].
Defined.

(** Fifteen rows in chunks of eight: one file, of fifteen lines. *)
Lemma write_files_partition_policy_demo :
  normalize ∅ (frame demo_world15) = inr demo_frame15 ∧
  has_timestamps demo_frame15 = true ∧
  (0 < 8)%Z ∧ (8 ≤ Z.of_nat (nrows (frame demo_world15)))%Z ∧
  ∃ w' lines,
    write_files "otherm-data" "abc-123" ∅ 8 "site" demo_world15 = (inr tt, w') ∧
    files w' !! lp_file_name "otherm-data" "site" 0 = Some lines ∧
    length lines = 15.
Proof.
  assert (normalize ∅ (frame demo_world15) = inr demo_frame15)
    as H1 by (vm_compute; reflexivity).
  assert (has_timestamps demo_frame15 = true) as H2 by reflexivity.
  assert (0 < 8)%Z as H3 by lia.
  assert (8 ≤ Z.of_nat (nrows (frame demo_world15)))%Z as H4 by (simpl; lia).
  split; [exact H1|]. split; [exact H2|]. split; [exact H3|].
  split; [exact H4|].
  destruct (write_files_partition_policy "otherm-data" "abc-123" ∅ 8
              "site" demo_world15 demo_frame15 H1 H2 H3 H4)
    as (w' & Hrun & _ & Hparts).
  destruct (Hparts 0 ltac:(vm_compute; lia))
    as (part & lines & _ & Hn & _ & Hfile & Hlen).
  exists w', lines. split; [exact Hrun|]. split; [exact Hfile|].
  rewrite Hlen, Hn. reflexivity.
Defined.

(** Three rows and a chunk size of four. *)
Lemma write_files_zero_chunks_demo :
  normalize demo_mapping (frame demo_world) = inr demo_normalized ∧
  (Z.of_nat (nrows (frame demo_world)) < 4)%Z ∧
  write_files "otherm-data" "abc-123" demo_mapping 4 "site" demo_world
    = (inl ValueError, mkWorld demo_normalized ∅ []).
Proof.
  assert (normalize demo_mapping (frame demo_world) = inr demo_normalized)
    as H1 by (vm_compute; reflexivity).
  assert (Z.of_nat (nrows (frame demo_world)) < 4)%Z as H2 by (simpl; lia).
  split; [exact H1|]. split; [exact H2|].
  exact (proj2 (proj2 (write_files_zero_chunks "otherm-data" "abc-123"
           demo_mapping 4 "site" demo_world demo_normalized H1 H2))).
Defined.

Lemma write_files_small_table_raises_demo :
  (Z.of_nat (nrows (frame demo_world)) < 4)%Z ∧
  ∃ e w',
    write_files "otherm-data" "abc-123" demo_mapping 4 "site" demo_world
      = (inl e, w') ∧
    files w' = files demo_world ∧ stdout w' = stdout demo_world.
Proof.
  assert (Z.of_nat (nrows (frame demo_world)) < 4)%Z as H1 by (simpl; lia).
  split; [exact H1|].
  exact (write_files_small_table_raises "otherm-data" "abc-123" demo_mapping
           4 "site" demo_world H1).
Defined.

(** C6 as stated fails: on three rows and a chunk size of four the call
    raises, and nothing is printed. *)
Lemma write_files_small_table_crashes :
  (Z.of_nat (nrows (frame demo_world)) < 4)%Z ∧
  (write_files "otherm-data" "abc-123" demo_mapping 4 "site" demo_world).1
    = inl ValueError ∧
  (∀ u, (write_files "otherm-data" "abc-123" demo_mapping 4 "site"
           demo_world).1 ≠ inr u) ∧
  stdout (write_files "otherm-data" "abc-123" demo_mapping 4 "site"
            demo_world).2 = [].
Proof.
  split; [simpl; lia|]. split; [vm_compute; reflexivity|].
  split; [|vm_compute; reflexivity].
  intros u. vm_compute. discriminate.
Qed.

Lemma write_files_requires_outdoor_temperature_demo :
  ("outdoor_temperature"
     ∉ columns (rename ∅ (frame demo_world_no_outdoor))) ∧
  ∃ e w',
    write_files "otherm-data" "abc-123" ∅ 1 "site" demo_world_no_outdoor
      = (inl e, w') ∧
    files w' = files demo_world_no_outdoor.
Proof.
  assert ("outdoor_temperature"
            ∉ columns (rename ∅ (frame demo_world_no_outdoor))) as H1.
  { apply (bool_decide_unpack _). vm_compute. exact I. }
  split; [exact H1|].
  destruct (write_files_requires_outdoor_temperature "otherm-data" "abc-123"
              ∅ 1 "site" demo_world_no_outdoor H1)
    as (e & w' & Hrun & _ & Hfiles).
  exists e, w'. split; [exact Hrun|exact Hfiles].
Defined.

Lemma write_files_mutates_frame_demo :
  normalize demo_mapping (frame demo_world) = inr demo_normalized ∧
  frame (write_files "otherm-data" "abc-123" demo_mapping 1 "site"
           demo_world).2 = demo_normalized.
Proof.
  assert (normalize demo_mapping (frame demo_world) = inr demo_normalized)
    as H1 by (vm_compute; reflexivity).
  split; [exact H1|].
  exact (proj1 (write_files_mutates_frame "otherm-data" "abc-123"
           demo_mapping 1 "site" demo_world demo_normalized H1)).
Defined.

(** C3 as stated fails: after the call the caller's table has other column
    names and other cells than before. *)
Lemma write_files_changes_caller_table :
  frame (write_files "otherm-data" "abc-123" demo_mapping 1 "site"
           demo_world).2 ≠ frame demo_world.
Proof. vm_compute. discriminate. Qed.

Lemma write_files_forward_fills_demo :
  normalize demo_mapping (frame demo_world) = inr demo_normalized ∧
  series (rename demo_mapping (frame demo_world)) !! 3
    = Some ("outdoor_temperature", [NaN; Obj (PyInt 5); NaN]) ∧
  in_timestamp_order demo_normalized = true ∧
  series (frame (write_files "otherm-data" "abc-123" demo_mapping 1 "site"
                   demo_world).2) !! 3
    = Some ("outdoor_temperature", [NaN; Obj (PyInt 5); Obj (PyInt 5)]).
Proof.
  assert (normalize demo_mapping (frame demo_world) = inr demo_normalized)
    as H1 by (vm_compute; reflexivity).
  assert (series (rename demo_mapping (frame demo_world)) !! 3
          = Some ("outdoor_temperature", [NaN; Obj (PyInt 5); NaN]))
    as H2 by (vm_compute; reflexivity).
  assert (length [NaN; Obj (PyInt 5); NaN] = nrows demo_normalized) as H3
    by reflexivity.
  assert (in_timestamp_order demo_normalized = true) as H4
    by (vm_compute; reflexivity).
  split; [exact H1|]. split; [exact H2|]. split; [exact H4|].
  exact (proj1 (write_files_forward_fills "otherm-data" "abc-123"
           demo_mapping 1 "site" demo_world demo_normalized 3 _ H1 H2 H3 H4)).
Defined.

(** C4 as stated fails on a table that is not in timestamp order.  The row
    of second 1 is the earliest of the table, so its missing value has no
    value before it in timestamp order and belongs to the leading run;
    [write_files] gives it the reading of second 2, which stands before it
    in the table. *)
Lemma write_files_fills_by_row_order :
  in_timestamp_order demo_frame_unsorted = false ∧
  created_us demo_frame_unsorted 0 = Some 2000000%Z ∧
  created_us demo_frame_unsorted 1 = Some 1000000%Z ∧
  row_getitem demo_frame_unsorted 0 "outdoor_temperature" = [Obj (PyInt 5)] ∧
  row_getitem demo_frame_unsorted 1 "outdoor_temperature" = [NaN] ∧
  row_getitem
    (frame (write_files "otherm-data" "abc-123" ∅ 1 "site"
              demo_world_unsorted).2) 1 "outdoor_temperature"
  = [Obj (PyInt 5)].
Proof. vm_compute. repeat split. Qed.

Lemma write_files_zero_fills_demo :
  series (rename demo_mapping (frame demo_world)) !! 2
    = Some ("heat_flow_rate", [NaN; Obj (PyInt 3); NaN]) ∧
  series (frame (write_files "otherm-data" "abc-123" demo_mapping 1 "site"
                   demo_world).2) !! 2
    = Some ("heat_flow_rate", [Obj (PyInt 0); Obj (PyInt 3); Obj (PyInt 0)]).
Proof.
  assert (series (rename demo_mapping (frame demo_world)) !! 2
          = Some ("heat_flow_rate", [NaN; Obj (PyInt 3); NaN]))
    as H1 by (vm_compute; reflexivity).
  split; [exact H1|].
  destruct (write_files_zero_fills "otherm-data" "abc-123" demo_mapping 1
              "site" demo_world 2 _ H1) as [Hfill _].
  destruct Hfill as [Hseries _].
  - exists "heat_flow_1"%string. vm_compute. reflexivity.
  - exact Hseries.
Defined.

(** The first line of the demo table: a space stands before the newline. *)
Lemma lp_line_trailing_space_demo :
  lp_line "otherm-data,equipment=abc-123" (columns demo_normalized)
    demo_normalized 0
  = inr ("otherm-data,equipment=abc-123 source_supplytemp=7,heat_flow_rate=0,outdoor_temperature=nan 1454768864 "
         ++ newline)%string ∧
  ∃ ts,
    row_timestamp demo_normalized 0 = inr ts ∧
    ("otherm-data,equipment=abc-123 source_supplytemp=7,heat_flow_rate=0,outdoor_temperature=nan 1454768864 "
       ++ newline)%string
    ≠ ("otherm-data,equipment=abc-123" ++ " "
       ++ join "," (measures (columns demo_normalized) demo_normalized 0)
       ++ " " ++ ts ++ newline)%string.
Proof.
  assert (lp_line "otherm-data,equipment=abc-123" (columns demo_normalized)
            demo_normalized 0
          = inr ("otherm-data,equipment=abc-123 source_supplytemp=7,heat_flow_rate=0,outdoor_temperature=nan 1454768864 "
                 ++ newline)%string) as H1 by (vm_compute; reflexivity).
  split; [exact H1|].
  destruct (lp_line_trailing_space _ _ _ _ _ H1) as (ts & Hts & _ & Hne).
  exists ts. split; [exact Hts|exact Hne].
Defined.



End Examples.

(** * Further properties of write_files *)

(** ** Which exceptions, and which files *)

Section Outcomes.
Context {V : Type} `{PyScalar V}.
Implicit Types (df : DataFrame V) (w : world V) (m : gmap string string).
Local Open Scope nat_scope.
Local Open Scope list_scope.

Lemma for_each_raises {A} (P : exn → Prop) (l : list A)
    (body : A → M V unit) w e w' :
  (∀ x w0 e0 w1, body x w0 = (inl e0, w1) → P e0) →
  for_each l body w = (inl e, w') → P e.
Proof.
  intros Hbody. revert w. induction l as [|x l IH]; intros w; [done|].
  cbn [for_each]. unfold bind at 1.
  destruct (body x w) as [[e0|[]] w1] eqn:Hx.
  - intros [= <- <-]. by eapply Hbody.
  - apply IH.
Qed.

Lemma for_each_invariant {A} (I : world V → Prop) (l : list A)
    (body : A → M V unit) w :
  (∀ x w0, I w0 → I (body x w0).2) →
  I w → I (for_each l body w).2.
Proof.
  intros Hbody. revert w. induction l as [|x l IH]; intros w Hw; [done|].
  cbn [for_each]. unfold bind at 1. specialize (Hbody x w Hw).
  destruct (body x w) as [[e0|[]] w1]; simpl in *; [done|]. by apply IH.
Qed.

Lemma row_timestamp_raises df i e :
  row_timestamp df i = inl e → e = ValueError ∨ e = AttributeError.
Proof.
  unfold row_timestamp.
  destruct (row_getitem df i "created") as [|[| | |us|x] [|]];
    intros [= <-]; auto.
Qed.

Lemma lp_line_raises lr cols df i e :
  cols ≠ [] → lp_line lr cols df i = inl e →
  e = ValueError ∨ e = AttributeError.
Proof.
  intros Hcols. unfold lp_line.
  destruct (row_timestamp df i) as [e0|ts] eqn:Hts.
  - rewrite (columns_loop_raises _ _ _ _ _ e0) by done.
    intros [= <-]. by eapply row_timestamp_raises.
  - rewrite (columns_loop_run _ _ _ _ _ ts Hts). by destruct cols.
Qed.

Lemma write_chunk_raises db_name slug lr cols i chunk w e w' :
  cols ≠ [] →
  write_chunk db_name slug lr cols i chunk w = (inl e, w') →
  e = ValueError ∨ e = AttributeError.
Proof.
  intros Hcols. unfold write_chunk, bind at 1. unfold fopen at 1.
  intros Hrun.
  eapply (for_each_raises (fun e => e = ValueError ∨ e = AttributeError));
    [|exact Hrun].
  intros r w0 e0 w1. unfold bind, raise_or.
  destruct (lp_line lr cols chunk r) as [e1|l] eqn:Hl; [|done].
  intros [= <- <-]. by eapply lp_line_raises.
Qed.

Lemma write_chunks_raises db_name uuid (chunk_size : Z) slug w e w' :
  columns (frame w) ≠ [] →
  write_chunks db_name uuid chunk_size slug w = (inl e, w') →
  e = ZeroDivisionError ∨ e = ValueError ∨ e = AttributeError.
Proof.
  intros Hcols. unfold write_chunks.
  unfold bind at 1. unfold get_frame at 1.
  unfold bind at 1. unfold raise_or at 1.
  destruct (chunk_count _ _) as [e0|chunks] eqn:Hc.
  { intros [= <- <-]. unfold chunk_count in Hc.
    destruct (chunk_size =? 0)%Z; [|done]. injection Hc as <-. auto. }
  unfold bind at 1. unfold raise_or at 1.
  destruct (array_split _ _) as [e0|df_split] eqn:Hs.
  { intros [= <- <-]. unfold array_split in Hs.
    destruct (chunks <=? 0)%Z; [|done]. injection Hs as <-. auto. }
  unfold bind at 1. unfold print at 1. intros Hrun. right.
  eapply (for_each_raises (fun e => e = ValueError ∨ e = AttributeError));
    [|exact Hrun].
  intros i w0 e0 w1 Hchunk.
  eapply write_chunk_raises; [exact Hcols|exact Hchunk].
Qed.

(** The exceptions [write_files] raises on a table held in memory are the
    KeyError of one of the two fills, ZeroDivisionError, ValueError and
    AttributeError; in particular [data_elements] and [timestamp] are never
    read unbound. *)
Theorem write_files_exceptions db_name uuid m (chunk_size : Z) slug w e w' :
  write_files db_name uuid m chunk_size slug w = (inl e, w') →
  e = KeyError "heat_flow_rate" ∨ e = KeyError "outdoor_temperature" ∨
  e = ZeroDivisionError ∨ e = ValueError ∨ e = AttributeError.
Proof.
  rewrite write_files_run.
  destruct (normalize m (frame w)) as [e0|df'] eqn:Hn.
  - intros [= <- <-]. unfold normalize in Hn.
    destruct (in_values "heat_flow_rate" m).
    + destruct (setitem_with "heat_flow_rate" _ _) as [e1|df2] eqn:E2.
      * injection Hn as <-. unfold setitem_with in E2.
        case_bool_decide; [done|]. injection E2 as <-. auto.
      * unfold setitem_with in Hn. case_bool_decide; [done|].
        injection Hn as <-. auto.
    + unfold setitem_with in Hn. case_bool_decide; [done|].
      injection Hn as <-. auto.
  - intros Hrun. apply write_chunks_raises in Hrun; [tauto|].
    simpl. rewrite (normalized_frame_ok _ _ _ Hn).
    by eapply normalize_columns_nonempty.
Qed.

Lemma write_chunk_files db_name slug lr cols i chunk w name :
  lp_file_name db_name slug i ≠ name →
  files (write_chunk db_name slug lr cols i chunk w).2 !! name
  = files w !! name.
Proof.
  intros Hne. unfold write_chunk, bind at 1. unfold fopen at 1.
  set (w1 := mkWorld _ _ _).
  transitivity (files w1 !! name); [|by apply lookup_insert_ne].
  apply (for_each_invariant (fun w0 => files w0 !! name = files w1 !! name));
    [|done].
  intros r w0 Hw0. unfold bind, raise_or.
  destruct (lp_line lr cols chunk r); [done|]. simpl.
  by rewrite lookup_alter_ne.
Qed.

Lemma write_chunk_keeps db_name slug lr cols i chunk w name :
  is_Some (files w !! name) →
  is_Some (files (write_chunk db_name slug lr cols i chunk w).2 !! name).
Proof.
  intros Hsome. unfold write_chunk, bind at 1. unfold fopen at 1.
  set (w1 := mkWorld _ _ _).
  apply (for_each_invariant (fun w0 => is_Some (files w0 !! name))).
  - intros r w0 Hw0. unfold bind, raise_or.
    destruct (lp_line lr cols chunk r); [done|]. simpl.
    destruct (decide (lp_file_name db_name slug i = name)) as [->|Hne].
    + rewrite lookup_alter_eq. by apply fmap_is_Some.
    + by rewrite lookup_alter_ne.
  - simpl. destruct (decide (lp_file_name db_name slug i = name)) as [->|Hne].
    + by rewrite lookup_insert_eq.
    + by rewrite lookup_insert_ne.
Qed.

Lemma write_chunks_files_invariant (I : gmap string (list string) → Prop)
    db_name uuid (chunk_size : Z) slug w :
  (∀ i lr cols chunk w0,
     I (files w0) → I (files (write_chunk db_name slug lr cols i chunk w0).2)) →
  I (files w) → I (files (write_chunks db_name uuid chunk_size slug w).2).
Proof.
  intros Hchunk Hw. unfold write_chunks.
  unfold bind at 1. unfold get_frame at 1.
  unfold bind at 1. unfold raise_or at 1.
  destruct (chunk_count _ _) as [e0|chunks]; [done|].
  unfold bind at 1. unfold raise_or at 1.
  destruct (array_split _ _) as [e0|df_split]; [done|].
  unfold bind at 1. unfold print at 1.
  apply (for_each_invariant (fun w0 => I (files w0))); [|done].
  intros i w0 Hw0. by apply Hchunk.
Qed.

(** Whatever the outcome, [write_files] leaves every file alone whose name
    is not that of a chunk file of this database name and slug, and it
    removes no file. *)
Theorem write_files_other_files db_name uuid m (chunk_size : Z) slug w name :
  let w' := (write_files db_name uuid m chunk_size slug w).2 in
  ((∀ i, lp_file_name db_name slug i ≠ name) →
     files w' !! name = files w !! name) ∧
  (is_Some (files w !! name) → is_Some (files w' !! name)).
Proof.
  intros w'. unfold w'. rewrite write_files_run.
  destruct (normalize m (frame w)) as [e0|df']; [done|].
  set (w0 := mkWorld _ _ _). change (files w) with (files w0). split.
  - intros Hname.
    apply (write_chunks_files_invariant
             (fun fs => fs !! name = files w0 !! name)); [|done].
    intros i lr cols chunk w1 Hw1. by rewrite write_chunk_files.
  - intros Hsome.
    apply (write_chunks_files_invariant (fun fs => is_Some (fs !! name)));
      [|done].
    intros i lr cols chunk w1 Hw1. by apply write_chunk_keeps.
Qed.

(** A chunk size of zero raises ZeroDivisionError and a negative one
    ValueError, once the caller's table is normalized: no file is written
    and nothing is printed. *)
Theorem write_files_chunk_size_not_positive
    db_name uuid m (chunk_size : Z) slug w df' :
  normalize m (frame w) = inr df' →
  (chunk_size ≤ 0)%Z →
  write_files db_name uuid m chunk_size slug w =
    (inl (if decide (chunk_size = 0%Z) then ZeroDivisionError else ValueError),
     mkWorld df' (files w) (stdout w)).
Proof.
  intros Hn Hle. rewrite write_files_run, Hn, (normalized_frame_ok _ _ _ Hn).
  unfold write_chunks.
  unfold bind at 1. unfold get_frame at 1.
  unfold bind at 1. unfold raise_or at 1. unfold chunk_count.
  case_decide as Hz.
  - subst. done.
  - destruct (Z.eqb_spec chunk_size 0); [done|].
    unfold bind at 1. unfold raise_or at 1.
    rewrite array_split_nonpos; [done|].
    simpl. rewrite <-(Z.opp_involutive chunk_size), Z.quot_opp_r by lia.
    assert (0 ≤ Z.of_nat (nrows df') ÷ - chunk_size)%Z
      by (apply Z.quot_pos; lia).
    lia.
Qed.

End Outcomes.

(** ** A row that does not encode *)

Section Crash.
Context {V : Type} `{PyScalar V}.
Implicit Types (df : DataFrame V) (w : world V) (m : gmap string string).
Local Open Scope nat_scope.
Local Open Scope list_scope.

Lemma for_each_app {A} (l1 l2 : list A) (body : A → M V unit) w :
  for_each (l1 ++ l2) body w =
    match for_each l1 body w with
    | (inl e, w1) => (inl e, w1)
    | (inr _, w1) => for_each l2 body w1
    end.
Proof.
  revert w. induction l1 as [|x l1 IH]; intros w; [done|].
  cbn [app for_each]. unfold bind at 1 2.
  destruct (body x w) as [[e|[]] w1]; [done|]. apply IH.
Qed.

Lemma write_rows_fail name lr cols chunk pre r post lines e w acc :
  try_map (lp_line lr cols chunk) pre = inr lines →
  lp_line lr cols chunk r = inl e →
  files w !! name = Some acc →
  for_each (pre ++ r :: post) (fun r =>
    bind (raise_or (lp_line lr cols chunk r)) (fun l => fwrite name l)) w
  = (inl e, mkWorld (frame w) (<[name := acc ++ lines]> (files w)) (stdout w)).
Proof.
  intros Hpre Hr Hacc. rewrite for_each_app.
  rewrite (write_rows_run _ _ _ _ _ lines _ acc) by done.
  cbn [for_each]. unfold bind at 1. unfold bind at 1. unfold raise_or at 1.
  by rewrite Hr.
Qed.

Lemma lp_lines_slice_upto lr cols st en df (texts : nat → string) :
  st ≤ en → en ≤ nrows df →
  (∀ r, r < en → lp_line lr cols df r = inr (texts r)) →
  lp_lines lr cols (slice_rows st en df) = inr (map texts (seq st (en - st))).
Proof.
  intros Hle Hen Htexts. unfold lp_lines. rewrite slice_rows_nrows by done.
  rewrite (try_map_ok _ (fun r => texts (st + r))).
  - f_equal. rewrite (seq_from st).
    change (map ?f ?l) with (f <$> l). by rewrite <-list_fmap_compose.
  - intros r [_ Hr]%elem_of_seq. simpl in Hr.
    rewrite lp_line_slice by done. apply Htexts. lia.
Qed.

Lemma seq_split_at (n j : nat) :
  j < n → seq 0 n = seq 0 j ++ j :: seq (S j) (n - S j).
Proof.
  intros Hj. replace n with (j + S (n - S j)) at 1 by lia.
  by rewrite seq_app.
Qed.

(** The part a row falls in. *)
Lemma part_of_row total k r :
  0 < k → r < total →
  ∃ j, j < k ∧ part_start total k j ≤ r < part_start total k (S j).
Proof.
  intros Hk Hr. rewrite <-(part_start_end total k Hk) in Hr.
  set (f := part_start total k) in *.
  assert (∀ n, r < f n → ∃ j, j < n ∧ f j ≤ r < f (S j)) as Hall.
  { induction n as [|n IHn]; intros Hlt.
    - unfold f in Hlt. rewrite part_start_0 in Hlt. lia.
    - destruct (Nat.lt_ge_cases r (f n)) as [Hlow|Hhigh].
      + destruct (IHn Hlow) as (j & Hj & Hrange).
        exists j. split; [lia|done].
      + exists n. split; [lia|]. split; done. }
  by apply Hall.
Qed.

(** When the row at position [r0] is the first whose [created] entry is not
    a Timestamp, [write_files] raises at that row: the files of the chunks
    before the one the row falls in are complete, the file of that chunk is
    left with the lines of its rows before [r0] (none, when the row is its
    first), the chunks after it are not written, and the chunk count has
    been printed. *)
Theorem write_files_stops_at_bad_row
    db_name uuid m (chunk_size : Z) slug w df' r0 e :
  normalize m (frame w) = inr df' →
  (0 < chunk_size)%Z → (chunk_size ≤ Z.of_nat (nrows (frame w)))%Z →
  r0 < nrows (frame w) →
  (∀ r, r < r0 → ∃ us, row_getitem df' r "created" = [Timestamp us]) →
  row_timestamp df' r0 = inl e →
  let R := nrows (frame w) in
  let k := Z.to_nat (Z.of_nat R / chunk_size) in
  let lr := line_reference_of db_name uuid in
  ∃ j w',
    j < k ∧ part_start R k j ≤ r0 < part_start R k (S j) ∧
    write_files db_name uuid m chunk_size slug w = (inl e, w') ∧
    frame w' = df' ∧
    stdout w' = stdout w ++ [str_nat k] ∧
    (∀ i, i < j →
       files w' !! lp_file_name db_name slug i = Some (chunk_content lr df' k i)) ∧
    files w' !! lp_file_name db_name slug j
      = Some (map (lp_text lr (columns df') df')
                  (seq (part_start R k j) (r0 - part_start R k j))) ∧
    (∀ i, j < i →
       files w' !! lp_file_name db_name slug i
       = files w !! lp_file_name db_name slug i).
Proof.
  intros Hn Hpos Hle Hr0 Hgood Hbad R k lr.
  pose proof (normalize_nrows _ _ _ Hn) as Hrows.
  fold R in Hrows, Hle, Hr0. clearbody R. subst R.
  pose proof (normalize_columns_nonempty _ _ _ Hn) as Hcols.
  destruct (chunk_count_bounds (nrows df') chunk_size Hpos Hle) as [Hk1 Hk2].
  assert (k = nrows df' / Z.to_nat chunk_size) as Hk by apply chunks_nat, Hpos.
  rewrite <-Hk in Hk1, Hk2.
  destruct (part_of_row (nrows df') k r0) as (j & Hj & Hlow & Hhigh); [lia|done|].
  assert (∀ r, r < r0 →
            lp_line lr (columns df') df' r = inr (lp_text lr (columns df') df' r))
    as Htexts.
  { intros r Hr. destruct (Hgood r Hr) as [us Hus].
    by apply (lp_line_ok _ _ _ _ us). }
  set (F1 := written db_name slug (chunk_content lr df' k) (files w) (seq 0 j)).
  set (partial := map (lp_text lr (columns df') df')
                      (seq (part_start (nrows df') k j) (r0 - part_start (nrows df') k j))).
  exists j, (mkWorld df' (<[lp_file_name db_name slug j := partial]> F1)
               (stdout w ++ [str_nat k])).
  split; [done|]. split; [done|]. split.
  { rewrite write_files_run, Hn, (normalized_frame_ok _ _ _ Hn).
    unfold write_chunks. fold (line_reference_of db_name uuid). fold lr.
    unfold bind at 1. unfold get_frame at 1.
    unfold bind at 1. unfold raise_or at 1. cbn [frame].
    rewrite chunk_count_pos by done. rewrite <-Hk.
    unfold bind at 1. unfold raise_or at 1.
    rewrite array_split_pos by lia.
    unfold bind at 1. unfold print at 1. cbn [frame files stdout].
    rewrite length_parts.
    rewrite (seq_split_at k j Hj), for_each_app.
    rewrite (write_parts_run _ _ _ _ _ (chunk_content lr df' k)).
    2:{ intros i Hi. simpl in Hi.
        rewrite (nth_lookup_Some _ _ _ _ (parts_lookup df' k i ltac:(lia))).
        apply lp_lines_slice_upto.
        - apply part_start_mono. lia.
        - apply part_start_le; lia.
        - intros r Hr. apply Htexts.
          assert (part_start (nrows df') k (S i) ≤ part_start (nrows df') k j)
            by (apply part_start_mono; lia). lia. }
    cbn [for_each frame files stdout]. unfold bind at 1.
    rewrite (nth_lookup_Some _ _ _ _ (parts_lookup df' k j Hj)).
    fold F1.
    set (part := slice_rows (part_start (nrows df') k j) (part_start (nrows df') k (S j)) df').
    assert (part_start (nrows df') k (S j) ≤ nrows df') as Hend
      by (apply part_start_le; lia).
    unfold write_chunk, bind at 1. unfold fopen at 1.
    cbn [frame files stdout].
    assert (nrows part = part_start (nrows df') k (S j) - part_start (nrows df') k j) as ->
      by (apply slice_rows_nrows; [lia|done]).
    set (d := r0 - part_start (nrows df') k j).
    rewrite (seq_split_at _ d) by (unfold d; lia).
    rewrite (write_rows_fail _ _ _ _ _ _ _ partial e _ []).
    - cbn [frame files stdout]. by rewrite insert_insert_eq.
    - rewrite (try_map_ok _ (fun r => lp_text lr (columns df') df'
                                        (part_start (nrows df') k j + r))).
      + f_equal. unfold partial. rewrite (seq_from (part_start (nrows df') k j)).
        change (map ?f ?l) with (f <$> l). by rewrite <-list_fmap_compose.
      + intros r [_ Hr]%elem_of_seq. simpl in Hr. unfold part.
        rewrite lp_line_slice by (unfold d in Hr; lia).
        apply Htexts. unfold d in Hr. lia.
    - unfold part. rewrite lp_line_slice by (unfold d; lia).
      replace (part_start (nrows df') k j + d) with r0 by (unfold d; lia).
      unfold lp_line. by rewrite (columns_loop_raises _ _ _ _ _ e).
    - cbn [files]. by rewrite lookup_insert_eq. }
  split; [done|]. split; [done|]. cbn [files]. split; [|split].
  - intros i Hi. rewrite lookup_insert_ne
      by (intros Heq%lp_file_name_inj; lia).
    apply written_lookup; [apply NoDup_seq|]. apply elem_of_seq. lia.
  - by rewrite lookup_insert_eq.
  - intros i Hi. rewrite lookup_insert_ne
      by (intros Heq%lp_file_name_inj; lia).
    apply written_other. intros i' [_ Hi']%elem_of_seq Heq%lp_file_name_inj.
    lia.
Qed.

End Crash.

(** ** How many lines a file holds, and in which order *)

Section Sizes.
Context {V : Type} `{PyScalar V}.
Implicit Types (df : DataFrame V) (w : world V) (m : gmap string string).
Local Open Scope nat_scope.
Local Open Scope list_scope.

Lemma part_size_bounds (total c i : nat) :
  0 < c → c ≤ total →
  let k := total / c in
  let size := part_start total k (S i) - part_start total k i in
  c ≤ size ∧ size < 2 * c ∧ (total mod c = 0 → size = c).
Proof.
  intros Hc Hle k size.
  assert (1 ≤ k) as Hk1 by (apply Nat.div_le_lower_bound; lia).
  pose proof (Nat.div_mod_eq total c) as Hc_eq. fold k in Hc_eq.
  assert (total mod c < c) as Hc_lt by (apply Nat.mod_upper_bound; lia).
  pose proof (Nat.div_mod_eq total k) as Hk_eq.
  assert (total mod k < k) as Hk_lt by (apply Nat.mod_upper_bound; lia).
  unfold size. rewrite part_start_step.
  set (q := total / k) in *. set (r := total mod k) in *.
  assert (k + c ≤ k * c + 1) as Hprod.
  { destruct k as [|k']; [lia|]. destruct c as [|c']; lia. }
  assert (c ≤ q) as Hlow.
  { destruct (Nat.le_gt_cases c q) as [|Hlt]; [done|].
    assert (k * (q + 1) ≤ k * c) by (apply Nat.mul_le_mono_l; lia). lia. }
  split; [|split].
  - case_decide; lia.
  - case_decide.
    + destruct (Nat.le_gt_cases (2 * c) (q + 1)) as [Hbig|]; [|lia].
      assert (k * (2 * c - 1) ≤ k * q) as Hmul
        by (apply Nat.mul_le_mono_l; lia).
      rewrite Nat.mul_sub_distr_l in Hmul. lia.
    + destruct (Nat.le_gt_cases (2 * c) q) as [Hbig|]; [|lia].
      assert (k * (2 * c) ≤ k * q) by (apply Nat.mul_le_mono_l; lia). lia.
  - intros Hdiv. rewrite Hdiv in Hc_eq.
    assert (q = c) as ->.
    { unfold q. rewrite Hc_eq at 1. rewrite Nat.add_0_r.
      apply Nat.div_mul. lia. }
    assert (r = 0) as ->.
    { unfold r. rewrite Hc_eq at 1. rewrite Nat.add_0_r.
      apply Nat.Div0.mod_mul. }
    case_decide; lia.
Qed.

(** The chunk size is a lower bound on the lines of a file, not an upper
    one: on a call that returns, every file holds at least [chunk_size] and
    fewer than twice [chunk_size] lines, and exactly [chunk_size] lines when
    the chunk size divides the row count. *)
Theorem write_files_file_sizes db_name uuid m (chunk_size : Z) slug w df' :
  normalize m (frame w) = inr df' →
  has_timestamps df' = true →
  (0 < chunk_size)%Z → (chunk_size ≤ Z.of_nat (nrows (frame w)))%Z →
  let R := nrows (frame w) in
  let k := Z.to_nat (Z.of_nat R / chunk_size) in
  ∃ w',
    write_files db_name uuid m chunk_size slug w = (inr tt, w') ∧
    ∀ i, i < k →
      ∃ lines,
        files w' !! lp_file_name db_name slug i = Some lines ∧
        (chunk_size ≤ Z.of_nat (length lines) < 2 * chunk_size)%Z ∧
        ((Z.of_nat R mod chunk_size = 0)%Z →
           Z.of_nat (length lines) = chunk_size).
Proof.
  intros Hn Hts Hpos Hle R k.
  pose proof (normalize_nrows _ _ _ Hn) as Hrows. fold R in Hrows.
  assert (k = R / Z.to_nat chunk_size) as Hk by apply chunks_nat, Hpos.
  eexists. split; [by apply write_files_ok|]. simpl. fold R k.
  intros i Hi. eexists. split.
  { apply written_lookup; [apply NoDup_seq|]. apply elem_of_seq. lia. }
  unfold chunk_content. rewrite length_map, length_seq, Hrows, Hk.
  destruct (part_size_bounds R (Z.to_nat chunk_size) i) as (Hlow & Hhigh & Hdiv);
    [lia..|].
  split; [lia|]. intros Hmod. rewrite Hdiv; [lia|].
  apply Nat2Z.inj. rewrite Nat2Z.inj_mod, Z2Nat.id by lia. done.
Qed.

(** On a call that returns, the files read one after the other in the
    order of their indices are the lines of the whole table, one per row in
    row order. *)
Theorem write_files_lines_in_order db_name uuid m (chunk_size : Z) slug w df' :
  normalize m (frame w) = inr df' →
  has_timestamps df' = true →
  (0 < chunk_size)%Z → (chunk_size ≤ Z.of_nat (nrows (frame w)))%Z →
  let R := nrows (frame w) in
  let k := Z.to_nat (Z.of_nat R / chunk_size) in
  ∃ w' all,
    write_files db_name uuid m chunk_size slug w = (inr tt, w') ∧
    lp_lines (line_reference_of db_name uuid) (columns df') df' = inr all ∧
    length all = R ∧
    concat (map (fun i => default [] (files w' !! lp_file_name db_name slug i))
                (seq 0 k)) = all.
Proof.
  intros Hn Hts Hpos Hle R k.
  pose proof (normalize_nrows _ _ _ Hn) as Hrows. fold R in Hrows.
  pose proof (normalize_columns_nonempty _ _ _ Hn) as Hcols.
  destruct (chunk_count_bounds R chunk_size Hpos Hle) as [Hk1 Hk2].
  assert (k = R / Z.to_nat chunk_size) as Hk by apply chunks_nat, Hpos.
  rewrite <-Hk in Hk1, Hk2.
  set (lr := line_reference_of db_name uuid).
  exists (mkWorld df'
            (written db_name slug (chunk_content lr df' k) (files w) (seq 0 k))
            (stdout w ++ [str_nat k])),
         (map (lp_text lr (columns df') df') (seq 0 R)).
  split; [by apply write_files_ok|]. split; [|split].
  - unfold lp_lines. rewrite Hrows. apply try_map_ok.
    intros r [_ Hr]%elem_of_seq. simpl in Hr.
    destruct (has_timestamps_row df' r Hts ltac:(lia)) as [us Hus].
    by apply (lp_line_ok _ _ _ _ us).
  - by rewrite length_map, length_seq.
  - cbn [files].
    rewrite (map_ext_in _ (chunk_content lr df' k)).
    2:{ intros i [_ Hi]%in_seq.
        rewrite written_lookup; [done|apply NoDup_seq|].
        apply elem_of_seq. lia. }
    unfold chunk_content. rewrite Hrows.
    replace (seq 0 R) with (seq 0 (part_start R k k))
      by (rewrite part_start_end by lia; done).
    rewrite <-(concat_ranges (part_start R k) k)
      by (done || intros; apply part_start_mono; lia).
    by rewrite concat_map, map_map.
Qed.

End Sizes.

(** ** The normalized table, and a second call *)

Section Again.
Context {V : Type} `{PyScalar V}.
Implicit Types (df : DataFrame V) (w : world V) (m : gmap string string)
  (s : list (cell V)).
Local Open Scope nat_scope.
Local Open Scope list_scope.

Lemma normalize_series m df df' :
  normalize m df = inr df' →
  series df' = map (fun p => (p.1, fill_column m p.1 p.2)) (series (rename m df)).
Proof.
  unfold normalize, fill_column. destruct (in_values _ m); simpl.
  - destruct (setitem_with "heat_flow_rate" _ _) as [e|df2] eqn:E2; [done|].
    apply setitem_with_inv in E2 as [_ ->].
    intros [_ ->]%setitem_with_inv. simpl. rewrite map_map.
    apply map_ext. intros [l s]. simpl.
    destruct (String.eqb_spec l "heat_flow_rate") as [->|Hl]; simpl; [done|].
    by destruct (String.eqb l "outdoor_temperature").
  - intros [_ ->]%setitem_with_inv. simpl.
    apply map_ext. intros [l s]. simpl.
    by destruct (String.eqb l "outdoor_temperature").
Qed.

(** The fills touch the two columns they name and no other: after
    [write_files] the caller's table has its row count, its columns in
    their order under their new labels, and in every column not labelled
    [heat_flow_rate] or [outdoor_temperature] the cells it had. *)
Theorem write_files_keeps_other_columns db_name uuid m (chunk_size : Z) slug w df' :
  normalize m (frame w) = inr df' →
  let after := frame (write_files db_name uuid m chunk_size slug w).2 in
  nrows after = nrows (frame w) ∧
  columns after = map (fun c => default c (m !! c)) (columns (frame w)) ∧
  ∀ j l s,
    series (frame w) !! j = Some (l, s) →
    default l (m !! l) ≠ "heat_flow_rate" →
    default l (m !! l) ≠ "outdoor_temperature" →
    series after !! j = Some (default l (m !! l), s).
Proof.
  intros Hn after. unfold after.
  rewrite write_files_frame, (normalized_frame_ok _ _ _ Hn).
  split; [by eapply normalize_nrows|]. split.
  - rewrite (normalize_columns _ _ _ Hn). unfold columns, rename. simpl.
    change (map ?f ?l) with (f <$> l). rewrite <-!list_fmap_compose.
    by apply list_fmap_ext.
  - intros j l s Hj Hhf Hot. rewrite (normalize_series _ _ _ Hn).
    change (map ?f ?l) with (f <$> l). unfold rename. simpl.
    change (map ?f ?l) with (f <$> l).
    rewrite !list_lookup_fmap, Hj. simpl. unfold fill_column.
    destruct (String.eqb_spec (default l (m !! l)) "outdoor_temperature");
      [done|].
    destruct (String.eqb_spec (default l (m !! l)) "heat_flow_rate");
      [done|].
    by rewrite andb_false_r.
Qed.

Lemma ffill_from_idem (last : option (cell V)) s :
  ffill_from last (ffill_from last s) = ffill_from last s.
Proof.
  revert last. induction s as [|c s IH]; intros last; [done|]. simpl.
  destruct (isna c) eqn:Hc; simpl.
  - destruct last as [v|]; simpl.
    + destruct (isna v) eqn:Hv; simpl; by rewrite IH.
    + by rewrite Hc, IH.
  - by rewrite Hc, IH.
Qed.

Lemma fillna_zero_idem s : fillna_zero (fillna_zero s) = fillna_zero s.
Proof.
  unfold fillna_zero. rewrite map_map. apply map_ext.
  intros c. by destruct (isna c) eqn:Hc; simpl; rewrite ?Hc.
Qed.

Lemma fill_column_idem m l s :
  fill_column m l (fill_column m l s) = fill_column m l s.
Proof.
  unfold fill_column. destruct (String.eqb l "outdoor_temperature").
  - apply ffill_from_idem.
  - destruct (in_values _ m && String.eqb l "heat_flow_rate");
      [apply fillna_zero_idem|done].
Qed.

Lemma targets_fixed_label m c :
  targets_fixed m →
  default (default c (m !! c)) (m !! default c (m !! c)) = default c (m !! c).
Proof.
  intros Hfixed. destruct (m !! c) as [v|] eqn:Hc; simpl.
  - by apply (Hfixed c v).
  - by rewrite Hc.
Qed.

Lemma setitem_with_fixed name f df :
  name ∈ columns df →
  (∀ p, p ∈ series df → p.1 = name → f p.2 = p.2) →
  setitem_with name f df = inr df.
Proof.
  intros Hin Hfix. unfold setitem_with. rewrite bool_decide_eq_true_2 by done.
  f_equal. destruct df as [n ps]. simpl in *. f_equal. clear Hin.
  induction ps as [|[l s] ps IH]; simpl; [done|].
  rewrite IH by (intros p Hp; apply Hfix; by right).
  destruct (String.eqb_spec l name) as [->|]; [|done].
  do 2 f_equal. apply (Hfix (name, s)); [by left|done].
Qed.

Lemma normalize_has_heat_flow m df df' :
  normalize m df = inr df' → in_values "heat_flow_rate" m = true →
  "heat_flow_rate" ∈ columns (rename m df).
Proof.
  unfold normalize. intros Hn Hv. rewrite Hv in Hn.
  destruct (setitem_with "heat_flow_rate" _ _) as [e|df2] eqn:E2; [done|].
  by apply setitem_with_inv in E2 as [Hin _].
Qed.

Lemma rename_fixed m df :
  (∀ c, c ∈ columns df → default c (m !! c) = c) → rename m df = df.
Proof.
  intros Hfix. destruct df as [n ps]. unfold rename, columns in *.
  simpl in *. f_equal.
  induction ps as [|[l s] ps IH]; simpl; [done|].
  rewrite IH by (intros c Hc; apply Hfix; by right).
  by rewrite (Hfix l) by by left.
Qed.

(** With a mapping whose target names are not mapped further, a table that
    is normalized normalizes to itself. *)
Lemma normalize_idem m df df' :
  targets_fixed m → normalize m df = inr df' → normalize m df' = inr df'.
Proof.
  intros Hfixed Hn.
  pose proof (normalize_series _ _ _ Hn) as Hseries.
  pose proof (normalize_columns _ _ _ Hn) as Hcolumns.
  assert (rename m df' = df') as Hren.
  { apply rename_fixed. intros c. rewrite Hcolumns. unfold columns, rename.
    simpl. intros [[l s] [-> Hp]]%list_elem_of_fmap.
    apply list_elem_of_fmap in Hp as [[l0 s0] [[= -> ->] _]]. simpl.
    by apply targets_fixed_label. }
  assert (∀ p, p ∈ series df' → fill_column m p.1 p.2 = p.2) as Hfilled.
  { intros p. rewrite Hseries. intros [[l s] [-> _]]%list_elem_of_fmap.
    simpl. apply fill_column_idem. }
  unfold normalize. rewrite Hren.
  assert (setitem_with "outdoor_temperature" ffill df' = inr df') as Hot.
  { apply setitem_with_fixed.
    - rewrite Hcolumns. by eapply normalize_has_outdoor.
    - intros p Hp Hl. specialize (Hfilled p Hp). unfold fill_column in Hfilled.
      by rewrite Hl in Hfilled. }
  destruct (in_values "heat_flow_rate" m) eqn:Hv; [|done].
  rewrite setitem_with_fixed; [done| |].
  - rewrite Hcolumns. by eapply normalize_has_heat_flow.
  - intros p Hp Hl. specialize (Hfilled p Hp). unfold fill_column in Hfilled.
    by rewrite Hl, Hv in Hfilled.
Qed.

Lemma written_written db_name slug content
    (fs : gmap string (list string)) (indices : list nat) :
  NoDup indices →
  written db_name slug content (written db_name slug content fs indices) indices
  = written db_name slug content fs indices.
Proof.
  intros Hnd. apply map_eq. intros name.
  destruct (decide (name ∈ lp_file_name db_name slug <$> indices)) as [Hin|Hout].
  - apply list_elem_of_fmap in Hin as [i [-> Hi]].
    by rewrite !written_lookup.
  - rewrite !written_other; [done|..];
      intros i Hi <-; apply Hout, list_elem_of_fmap; eauto.
Qed.

(** [open(name, 'w')] empties a file before it is written: with a mapping
    whose target names are not mapped further, a second call on the world
    the first one left returns, prints the chunk count once more and leaves
    the caller's table and every file as the first call left them. *)
Theorem write_files_again db_name uuid m (chunk_size : Z) slug w df' :
  targets_fixed m →
  normalize m (frame w) = inr df' →
  has_timestamps df' = true →
  (0 < chunk_size)%Z → (chunk_size ≤ Z.of_nat (nrows (frame w)))%Z →
  let k := Z.to_nat (Z.of_nat (nrows (frame w)) / chunk_size) in
  let w1 := (write_files db_name uuid m chunk_size slug w).2 in
  write_files db_name uuid m chunk_size slug w1 =
    (inr tt, mkWorld (frame w1) (files w1) (stdout w1 ++ [str_nat k])).
Proof.
  intros Hfixed Hn Hts Hpos Hle k w1. unfold w1.
  rewrite (write_files_ok _ _ _ _ _ _ _ Hn Hts Hpos Hle). fold k. cbn [snd].
  pose proof (normalize_nrows _ _ _ Hn) as Hrows.
  pose proof (normalize_idem m (frame w) df' Hfixed Hn) as Hn'.
  set (w0 := mkWorld df' _ _).
  assert (chunk_size ≤ Z.of_nat (nrows (frame w0)))%Z as Hle'
    by (simpl; by rewrite Hrows).
  rewrite (write_files_ok db_name uuid m chunk_size slug w0 df' Hn' Hts Hpos Hle').
  unfold w0. cbn [frame files stdout]. rewrite Hrows. fold k.
  by rewrite written_written by apply NoDup_seq.
Qed.

End Again.

(** ** Where a missing value can remain *)

Section Remaining.
Context {V : Type} `{PyScalar V}.
Implicit Types (df : DataFrame V) (w : world V) (m : gmap string string)
  (s : list (cell V)).
Local Open Scope nat_scope.

Lemma ffill_from_missing (last : option (cell V)) s i c' :
  (∀ v, last = Some v → isna v = false) →
  ffill_from last s !! i = Some c' → isna c' = true →
  last = None ∧ ∀ k u, k ≤ i → s !! k = Some u → isna u = true.
Proof.
  revert last i. induction s as [|c s IH]; intros last i Hlast Hi Hc';
    [done|].
  simpl in Hi. destruct (isna c) eqn:Hc.
  - destruct i as [|i]; simpl in Hi.
    + injection Hi as <-. destruct last as [v|]; simpl in Hc'.
      * by rewrite (Hlast v) in Hc'.
      * split; [done|]. intros k u Hk Hu.
        assert (k = 0) as -> by lia. injection Hu as <-. done.
    + destruct (IH last i Hlast Hi Hc') as [-> Hall]. split; [done|].
      intros [|k] u Hk Hu; simpl in Hu.
      * by injection Hu as <-.
      * apply (Hall k); [lia|done].
  - destruct i as [|i]; simpl in Hi.
    + injection Hi as <-. congruence.
    + destruct (IH (Some c) i) as [Hnone _]; [|done..|done].
      by intros v [= <-].
Qed.

(** After [write_files] a value of the [outdoor_temperature] column is
    missing only where no reading has come yet: every cell of the column up
    to and including that row was missing in the table passed in. *)
Theorem write_files_missing_only_leading
    db_name uuid m (chunk_size : Z) slug w df' j s :
  normalize m (frame w) = inr df' →
  series (rename m (frame w)) !! j = Some ("outdoor_temperature", s) →
  ∃ s',
    series (frame (write_files db_name uuid m chunk_size slug w).2) !! j
      = Some ("outdoor_temperature", s') ∧
    length s' = length s ∧
    ∀ i c', s' !! i = Some c' → isna c' = true →
      ∀ k u, k ≤ i → s !! k = Some u → isna u = true.
Proof.
  intros Hn Hj. exists (ffill s). split; [|split].
  - rewrite write_files_frame, (normalized_frame_ok _ _ _ Hn).
    by apply (normalize_series_outdoor m (frame w)).
  - apply ffill_from_length.
  - intros i c' Hi Hc'.
    by destruct (ffill_from_missing None s i c') as [_ Hall].
Qed.

End Remaining.

(** ** Timestamps next to the epoch *)

Section NearEpoch.
Context {V : Type} `{PyScalar V}.



End NearEpoch.

(** ** The batch driver's call *)

Section Driver.
Context {V : Type} `{PyScalar V}.
Implicit Types (df : DataFrame V) (w : world V).
Local Open Scope nat_scope.
Local Open Scope list_scope.

Lemma rename_columns (m : gmap string string) df :
  columns (rename m df) = map (fun c => default c (m !! c)) (columns df).
Proof.
  unfold columns, rename. simpl.
  change (map ?f ?l) with (f <$> l). rewrite <-!list_fmap_compose.
  by apply list_fmap_ext.
Qed.

Lemma main_columns_renamed df :
  columns df = selected_columns main_msp_columns →
  columns (rename main_column_mapping df) =
    ["source_supplytemp"; "source_returntemp"; "heatpump_power"; "created";
     "sourcefluid_flowrate"; "heatpump_aux"; "heat_flow_rate";
     "outdoor_temperature"]%string.
Proof.
  intros Hcols. rewrite rename_columns, Hcols. vm_compute. reflexivity.
Qed.

Lemma main_mapping_normalizes df :
  columns df = selected_columns main_msp_columns →
  ∃ df', normalize main_column_mapping df = inr df'.
Proof.
  intros Hcols. pose proof (main_columns_renamed df Hcols) as Hren.
  unfold normalize.
  replace (in_values "heat_flow_rate" main_column_mapping) with true
    by (vm_compute; reflexivity).
  destruct (setitem_with_ok "heat_flow_rate" fillna_zero
              (rename main_column_mapping df)) as [df2 E2].
  { rewrite Hren. set_solver. }
  rewrite E2. apply setitem_with_ok.
  rewrite (setitem_with_columns _ _ _ _ E2), Hren. set_solver.
Qed.

(** The driver's mapping fits the columns it asks the database for: on a
    table with those columns [write_files] never raises KeyError, the
    mapping targets [heat_flow_rate] so the zero fill always runs, and the
    table is left with the standard names in the order of the select list,
    [created] and [outdoor_temperature] keeping theirs. *)
Theorem write_files_main_mapping db_name uuid (chunk_size : Z) slug w :
  columns (frame w) = selected_columns main_msp_columns →
  let r := write_files db_name uuid main_column_mapping chunk_size slug w in
  (∀ key, r.1 ≠ inl (KeyError key)) ∧
  (∃ key, main_column_mapping !! key = Some "heat_flow_rate"%string) ∧
  columns (frame r.2) =
    ["source_supplytemp"; "source_returntemp"; "heatpump_power"; "created";
     "sourcefluid_flowrate"; "heatpump_aux"; "heat_flow_rate";
     "outdoor_temperature"]%string.
Proof.
  intros Hcols r.
  destruct (main_mapping_normalizes (frame w) Hcols) as [df' Hn].
  split; [|split].
  - intros key Hkey. unfold r in Hkey. rewrite write_files_run, Hn in Hkey.
    destruct (write_chunks _ _ _ _ _) as [[e|u] w'] eqn:Hrun; [|done].
    simpl in Hkey. injection Hkey as ->.
    assert (columns (frame (mkWorld (normalized_frame main_column_mapping
                                       (frame w)) (files w) (stdout w)))
            ≠ []) as Hne.
    { cbn [frame]. rewrite (normalized_frame_ok _ _ _ Hn).
      exact (normalize_columns_nonempty _ _ _ Hn). }
    destruct (write_chunks_raises _ _ _ _ _ _ _ Hne Hrun) as [?|[?|?]];
      discriminate.
  - exists "heat_flow_1"%string. vm_compute. reflexivity.
  - unfold r. rewrite write_files_frame, (normalized_frame_ok _ _ _ Hn).
    rewrite (normalize_columns _ _ _ Hn). by apply main_columns_renamed.
Qed.

Lemma main_mapping_targets_fixed : targets_fixed main_column_mapping.
Proof. apply (bool_decide_unpack _). vm_compute. exact I. Qed.

End Driver.

(** ** One file name per slug and index *)

Section SlugNames.
Implicit Types (s t : string) (c : ascii).

Lemma split_nonempty c s : split c s ≠ [].
Proof.
  destruct s as [|a s]; [done|]. simpl.
  destruct (Ascii.eqb a c); [done|]. by destruct (split c s).
Qed.

Lemma split_app_any c s t :
  split c (s ++ String c t) = (split c s ++ split c t)%list.
Proof.
  induction s as [|a s IH].
  - rewrite append_nil_l. simpl. by rewrite Ascii.eqb_refl.
  - rewrite append_cons. simpl. rewrite IH.
    destruct (Ascii.eqb a c); [done|].
    pose proof (split_nonempty c s). by destruct (split c s).
Qed.

Lemma concat_cons2 (sep x y : string) (l : list string) :
  String.concat sep (x :: y :: l) = x ++ sep ++ String.concat sep (y :: l).
Proof. done. Qed.

Lemma join_split c s : join (String c "") (split c s) = s.
Proof.
  induction s as [|a s IH]; [done|]. simpl.
  pose proof (split_nonempty c s) as Hs. unfold join in *.
  destruct (Ascii.eqb_spec a c) as [->|Hne].
  - destruct (split c s) as [|p ps] eqn:E; [done|].
    by rewrite concat_cons2, IH.
  - destruct (split c s) as [|p [|q qs]]; [done|..].
    + simpl in *. by rewrite IH.
    + rewrite concat_cons2 in *. by rewrite append_cons, IH.
Qed.

Lemma append_sep_inj c s1 s2 t1 t2 :
  free_of c t1 = true → free_of c t2 = true →
  s1 ++ String c t1 = s2 ++ String c t2 → s1 = s2 ∧ t1 = t2.
Proof.
  intros Ht1 Ht2 Heq. apply (f_equal (split c)) in Heq.
  rewrite !split_app_any in Heq.
  rewrite (split_free c t1), (split_free c t2) in Heq by done.
  apply app_inj_tail in Heq as [Hsplit ->]. split; [|done].
  by rewrite <-(join_split c s1), <-(join_split c s2), Hsplit.
Qed.

Lemma str_nat_free_of_underscore (n : nat) : free_of "_" (str_nat n) = true.
Proof.
  unfold str_nat, free_of.
  apply (string_forall_impl is_digit).
  - intros a Ha. by destruct a as [[] [] [] [] [] [] [] []].
  - unfold NilZero.string_of_uint.
    destruct (Nat.to_uint n); try apply string_of_uint_digits. done.
Qed.

(** For one database name, the chunk files of two slugs, or of two
    indices, are different files. *)
Theorem lp_file_name_inj_slug db_name slug1 slug2 (i j : nat) :
  lp_file_name db_name slug1 i = lp_file_name db_name slug2 j →
  slug1 = slug2 ∧ i = j.
Proof.
  unfold lp_file_name, join. cbn [String.concat]. intros Heq.
  apply append_inj_l in Heq.
  assert (∀ slug n,
            "_" ++ slug ++ "_" ++ "chunk_" ++ n ++ ".txt"
            = "_" ++ ((slug ++ "_chunk") ++ String "_" n) ++ ".txt") as Hshape.
  { intros slug n. by rewrite !append_assoc. }
  rewrite !Hshape in Heq. apply append_inj_l, append_inj_r in Heq.
  apply append_sep_inj in Heq as [Hslug Hn];
    [|apply str_nat_free_of_underscore..].
  apply append_inj_r in Hslug. split; [done|]. by apply str_nat_inj.
Qed.

End SlugNames.

(** * The further properties on concrete tables *)

Section MoreExamples.
Local Open Scope nat_scope.
Local Open Scope list_scope.

Lemma write_files_exceptions_demo :
  write_files "otherm-data" "abc-123" demo_mapping 4 "site" demo_world
    = (inl ValueError, mkWorld demo_normalized ∅ []) ∧
  (ValueError = KeyError "heat_flow_rate" ∨
   ValueError = KeyError "outdoor_temperature" ∨
   ValueError = ZeroDivisionError ∨ ValueError = ValueError ∨
   ValueError = AttributeError).
Proof.
  assert (write_files "otherm-data" "abc-123" demo_mapping 4 "site" demo_world
          = (inl ValueError, mkWorld demo_normalized ∅ [])) as H1
    by (vm_compute; reflexivity).
  split; [exact H1|].
  exact (write_files_exceptions _ _ _ _ _ _ _ _ H1).
Defined.

Lemma write_files_other_files_demo :
  (∀ i, lp_file_name "otherm-data" "site" i ≠ "notes.txt"%string) ∧
  files (write_files "otherm-data" "abc-123" demo_mapping 1 "site"
           (mkWorld demo_frame {["notes.txt"%string := ["kept"%string]]} [])).2
    !! "notes.txt"%string = Some ["kept"%string].
Proof.
  assert (∀ i, lp_file_name "otherm-data" "site" i ≠ "notes.txt"%string) as H1.
  { intros i Heq. vm_compute in Heq. discriminate Heq. }
  split; [exact H1|].
  rewrite (proj1 (write_files_other_files "otherm-data" "abc-123" demo_mapping
             1 "site"
             (mkWorld demo_frame {["notes.txt"%string := ["kept"%string]]} [])
             "notes.txt"%string) H1).
  vm_compute. reflexivity.
Defined.

Lemma write_files_chunk_size_not_positive_demo :
  normalize demo_mapping (frame demo_world) = inr demo_normalized ∧
  (0 ≤ 0)%Z ∧ (-8 ≤ 0)%Z ∧
  write_files "otherm-data" "abc-123" demo_mapping 0 "site" demo_world
    = (inl ZeroDivisionError, mkWorld demo_normalized ∅ []) ∧
  write_files "otherm-data" "abc-123" demo_mapping (-8) "site" demo_world
    = (inl ValueError, mkWorld demo_normalized ∅ []).
Proof.
  assert (normalize demo_mapping (frame demo_world) = inr demo_normalized)
    as H1 by (vm_compute; reflexivity).
  assert (0 ≤ 0)%Z as H2 by lia.
  assert (-8 ≤ 0)%Z as H3 by lia.
  split; [exact H1|]. split; [exact H2|]. split; [exact H3|]. split.
  - exact (write_files_chunk_size_not_positive "otherm-data" "abc-123"
             demo_mapping 0 "site" demo_world demo_normalized H1 H2).
  - exact (write_files_chunk_size_not_positive "otherm-data" "abc-123"
             demo_mapping (-8) "site" demo_world demo_normalized H1 H3).
Defined.

(** Three rows in chunks of one, the second without a timestamp: the first
    file is complete, the second is left empty, the third is not written. *)
Lemma write_files_stops_at_bad_row_demo :
  normalize ∅ demo_frame_nat = inr demo_frame_nat ∧
  row_timestamp demo_frame_nat 1 = inl ValueError ∧
  ∃ w',
    write_files "otherm-data" "abc-123" ∅ 1 "site"
      (mkWorld demo_frame_nat ∅ []) = (inl ValueError, w') ∧
    stdout w' = ["3"%string] ∧
    length <$> files w' !! lp_file_name "otherm-data" "site" 0 = Some 1 ∧
    files w' !! lp_file_name "otherm-data" "site" 1 = Some [] ∧
    files w' !! lp_file_name "otherm-data" "site" 2 = None.
Proof.
  assert (normalize ∅ (frame (mkWorld demo_frame_nat ∅ []))
          = inr demo_frame_nat) as H1 by (vm_compute; reflexivity).
  assert (0 < 1)%Z as H2 by lia.
  assert (1 ≤ Z.of_nat (nrows (frame (mkWorld demo_frame_nat ∅ []))))%Z
    as H3 by (vm_compute; discriminate).
  assert (1 < nrows (frame (mkWorld demo_frame_nat ∅ []))) as H4
    by (vm_compute; lia).
  assert (∀ r, r < 1 →
            ∃ us, row_getitem demo_frame_nat r "created" = [Timestamp us])
    as H5.
  { intros r Hr. assert (r = 0) as -> by lia. eexists. reflexivity. }
  assert (row_timestamp demo_frame_nat 1 = inl ValueError) as H6
    by reflexivity.
  split; [exact H1|]. split; [exact H6|].
  destruct (write_files_stops_at_bad_row "otherm-data" "abc-123" ∅ 1 "site"
              (mkWorld demo_frame_nat ∅ []) demo_frame_nat 1 ValueError
              H1 H2 H3 H4 H5 H6)
    as (j & w' & Hj & [Hlow Hhigh] & Hrun & _ & Hout & Hbefore & Hat & Hafter).
  assert (j = 1) as ->.
  { vm_compute in Hj. destruct j as [|[|[|j]]]; try lia.
    - vm_compute in Hhigh. lia.
    - vm_compute in Hlow. lia. }
  exists w'. split; [exact Hrun|]. split; [exact Hout|]. split; [|split].
  - rewrite (Hbefore 0) by lia. vm_compute. reflexivity.
  - rewrite Hat. vm_compute. reflexivity.
  - rewrite (Hafter 2) by lia. vm_compute. reflexivity.
Defined.

Lemma write_files_file_sizes_demo :
  normalize ∅ (frame demo_world15) = inr demo_frame15 ∧
  has_timestamps demo_frame15 = true ∧
  (0 < 8)%Z ∧ (8 ≤ Z.of_nat (nrows (frame demo_world15)))%Z ∧
  ∃ w' lines,
    write_files "otherm-data" "abc-123" ∅ 8 "site" demo_world15 = (inr tt, w') ∧
    files w' !! lp_file_name "otherm-data" "site" 0 = Some lines ∧
    (8 ≤ Z.of_nat (length lines) < 16)%Z.
Proof.
  assert (normalize ∅ (frame demo_world15) = inr demo_frame15)
    as H1 by (vm_compute; reflexivity).
  assert (has_timestamps demo_frame15 = true) as H2 by reflexivity.
  assert (0 < 8)%Z as H3 by lia.
  assert (8 ≤ Z.of_nat (nrows (frame demo_world15)))%Z as H4
    by (vm_compute; discriminate).
  split; [exact H1|]. split; [exact H2|]. split; [exact H3|].
  split; [exact H4|].
  destruct (write_files_file_sizes "otherm-data" "abc-123" ∅ 8 "site"
              demo_world15 demo_frame15 H1 H2 H3 H4) as (w' & Hrun & Hsizes).
  destruct (Hsizes 0 ltac:(vm_compute; lia)) as (lines & Hfile & Hbounds & _).
  exists w', lines. split; [exact Hrun|]. split; [exact Hfile|exact Hbounds].
Defined.

Lemma write_files_lines_in_order_demo :
  normalize demo_mapping (frame demo_world) = inr demo_normalized ∧
  has_timestamps demo_normalized = true ∧
  (0 < 1)%Z ∧ (1 ≤ Z.of_nat (nrows (frame demo_world)))%Z ∧
  ∃ w' all,
    write_files "otherm-data" "abc-123" demo_mapping 1 "site" demo_world
      = (inr tt, w') ∧
    length all = 3 ∧
    concat (map (fun i => default []
                   (files w' !! lp_file_name "otherm-data" "site" i))
                [0; 1; 2]) = all.
Proof.
  assert (normalize demo_mapping (frame demo_world) = inr demo_normalized)
    as H1 by (vm_compute; reflexivity).
  assert (has_timestamps demo_normalized = true) as H2 by reflexivity.
  assert (0 < 1)%Z as H3 by lia.
  assert (1 ≤ Z.of_nat (nrows (frame demo_world)))%Z as H4
    by (vm_compute; discriminate).
  split; [exact H1|]. split; [exact H2|]. split; [exact H3|].
  split; [exact H4|].
  destruct (write_files_lines_in_order "otherm-data" "abc-123" demo_mapping 1
              "site" demo_world demo_normalized H1 H2 H3 H4)
    as (w' & all & Hrun & _ & Hlen & Hconcat).
  exists w', all. split; [exact Hrun|]. split; [exact Hlen|exact Hconcat].
Defined.

Lemma write_files_keeps_other_columns_demo :
  normalize demo_mapping (frame demo_world) = inr demo_normalized ∧
  series (frame (write_files "otherm-data" "abc-123" demo_mapping 1 "site"
                   demo_world).2) !! 1
    = Some ("source_supplytemp"%string, [Obj (PyInt 7); NaN; Obj (PyInt 9)]).
Proof.
  assert (normalize demo_mapping (frame demo_world) = inr demo_normalized)
    as H1 by (vm_compute; reflexivity).
  split; [exact H1|].
  destruct (write_files_keeps_other_columns "otherm-data" "abc-123"
              demo_mapping 1 "site" demo_world demo_normalized H1)
    as (_ & _ & Hcells).
  rewrite (Hcells 1 "ewt_1"%string [Obj (PyInt 7); NaN; Obj (PyInt 9)]).
  - vm_compute. reflexivity.
  - reflexivity.
  - vm_compute. discriminate.
  - vm_compute. discriminate.
Defined.

Lemma write_files_again_demo :
  targets_fixed demo_mapping ∧
  normalize demo_mapping (frame demo_world) = inr demo_normalized ∧
  has_timestamps demo_normalized = true ∧
  (0 < 2)%Z ∧ (2 ≤ Z.of_nat (nrows (frame demo_world)))%Z ∧
  let w1 := (write_files "otherm-data" "abc-123" demo_mapping 2 "site"
               demo_world).2 in
  write_files "otherm-data" "abc-123" demo_mapping 2 "site" w1
    = (inr tt, mkWorld (frame w1) (files w1) (stdout w1 ++ ["1"%string])).
Proof.
  assert (targets_fixed demo_mapping) as H0.
  { apply (bool_decide_unpack _). vm_compute. exact I. }
  assert (normalize demo_mapping (frame demo_world) = inr demo_normalized)
    as H1 by (vm_compute; reflexivity).
  assert (has_timestamps demo_normalized = true) as H2 by reflexivity.
  assert (0 < 2)%Z as H3 by lia.
  assert (2 ≤ Z.of_nat (nrows (frame demo_world)))%Z as H4
    by (vm_compute; discriminate).
  split; [exact H0|]. split; [exact H1|]. split; [exact H2|].
  split; [exact H3|]. split; [exact H4|].
  exact (write_files_again "otherm-data" "abc-123" demo_mapping 2 "site"
           demo_world demo_normalized H0 H1 H2 H3 H4).
Defined.

Lemma write_files_missing_only_leading_demo :
  normalize demo_mapping (frame demo_world) = inr demo_normalized ∧
  series (rename demo_mapping (frame demo_world)) !! 3
    = Some ("outdoor_temperature"%string, [NaN; Obj (PyInt 5); NaN]) ∧
  ∃ s',
    series (frame (write_files "otherm-data" "abc-123" demo_mapping 1 "site"
                     demo_world).2) !! 3
      = Some ("outdoor_temperature"%string, s') ∧
    length s' = 3.
Proof.
  assert (normalize demo_mapping (frame demo_world) = inr demo_normalized)
    as H1 by (vm_compute; reflexivity).
  assert (series (rename demo_mapping (frame demo_world)) !! 3
          = Some ("outdoor_temperature"%string, [NaN; Obj (PyInt 5); NaN]))
    as H2 by (vm_compute; reflexivity).
  split; [exact H1|]. split; [exact H2|].
  destruct (write_files_missing_only_leading "otherm-data" "abc-123"
              demo_mapping 1 "site" demo_world demo_normalized 3 _ H1 H2)
    as (s' & Hs' & Hlen & _).
  exists s'. split; [exact Hs'|exact Hlen].
Defined.


Lemma write_files_main_mapping_demo :
  columns (frame (mkWorld demo_frame_main ∅ []))
    = selected_columns main_msp_columns ∧
  ∀ key,
    (write_files "otherm-data" "abc-123" main_column_mapping main_chunk_size
       "site" (mkWorld demo_frame_main ∅ [])).1 ≠ inl (KeyError key).
Proof.
  assert (columns (frame (mkWorld demo_frame_main ∅ []))
          = selected_columns main_msp_columns) as H1
    by (vm_compute; reflexivity).
  split; [exact H1|].
  exact (proj1 (write_files_main_mapping "otherm-data" "abc-123"
                  main_chunk_size "site" (mkWorld demo_frame_main ∅ []) H1)).
Defined.

Lemma lp_file_name_inj_slug_demo :
  lp_file_name "otherm-data" "site" 3 = lp_file_name "otherm-data" "site" 3 ∧
  ("site"%string = "site"%string ∧ 3 = 3).
Proof.
  assert (lp_file_name "otherm-data" "site" 3
          = lp_file_name "otherm-data" "site" 3) as H1 by reflexivity.
  split; [exact H1|].
  exact (lp_file_name_inj_slug "otherm-data" "site" "site" 3 3 H1).
Defined.

(** With two database names the names can meet. *)
Example lp_file_name_meets :
  lp_file_name "a_b" "c" 0 = lp_file_name "a" "b_c" 0.
Proof. reflexivity. Qed.

End MoreExamples.
